(** * Named-pipe transport listener of the adaptor runtime

    A shallow embedding of
    [src/openjd/adaptor_runtime/_named_pipe/named_pipe_server.py]
    ([MultipleErrors], [NamedPipeServer.__init__], [_create_pipe],
    [serve_forever], [shutdown]) together with the part of the entry point
    that the unit tests in [test/openjd/adaptor_runtime/unit/test_entrypoint.py]
    exercise.

    Python statements become computations in a state-and-exception monad
    over a [machine]: the server object, the operating system behind the
    Win32 calls, and the chronological trace of every externally visible
    effect (log records, prints, Win32 calls, thread starts). *)

From Stdlib Require Import ZArith Ascii String List Permutation Lia.
From stdpp Require Import base list strings gmap pretty.
Import ListNotations.

Local Open Scope Z_scope.
Local Open Scope string_scope.
Local Open Scope list_scope.

(** ** Win32 constants used by the module *)

Definition HANDLE : Type := Z.

Module win32file.
Definition INVALID_HANDLE_VALUE : HANDLE := -1.
Definition FILE_FLAG_OVERLAPPED : Z := 0x40000000.
End win32file.

Module win32pipe.
Definition PIPE_ACCESS_DUPLEX : Z := 3.
Definition PIPE_TYPE_MESSAGE : Z := 4.
Definition PIPE_READMODE_MESSAGE : Z := 2.
Definition PIPE_WAIT : Z := 0.
Definition PIPE_UNLIMITED_INSTANCES : Z := 255.
End win32pipe.

Module winerror.
Definition ERROR_ACCESS_DENIED : Z := 5.
Definition ERROR_INVALID_HANDLE : Z := 6.
Definition ERROR_NO_DATA : Z := 232.
Definition ERROR_PIPE_NOT_CONNECTED : Z := 233.
End winerror.

(** ** Exceptions *)

(** The exception values that flow through the module.  [PyWinError] is
    [pywintypes.error], whose [args] are [(winerror, funcname, strerror)];
    [PyException] stands for an instance of any other subclass of
    [Exception].  Every constructor is a subclass of [Exception]; only
    [PyWinError] is matched by [except pywintypes.error]. *)
#[warnings="-register-all"]
Inductive exn : Type :=
| PyWinError (winerror : Z) (funcname strerror : string)
| RuntimeError (msg : string)
| OSError (msg : string)
| ModuleNotFoundError (msg : string)
| PyException (cls msg : string)
| MultipleErrors (errors : list exn).

(** ["; ".join(parts)] *)
Fixpoint join (sep : string) (parts : list string) : string :=
  match parts with
  | [] => EmptyString
  | [p] => p
  | p :: ps => p +:+ sep +:+ join sep ps
  end.

(** [repr(s)] of a Python [str]: the text between single quotes, or between
    double quotes when it holds a single quote and no double quote; the
    quote in use and the backslash are escaped, as are tab, newline,
    carriage return and the other control characters.  A [string] here is
    the text in UTF-8, and what lies above code 127 is taken to be printable
    and is kept as it is. *)
Definition single_quote : ascii := "039"%char.
Definition double_quote : ascii := "034"%char.
Definition backslash : ascii := "092"%char.

Fixpoint contains_char (c : ascii) (s : string) : bool :=
  match s with
  | EmptyString => false
  | String c' s' => Ascii.eqb c c' || contains_char c s'
  end.

Definition hex_digit (n : N) : ascii :=
  match n with
  | 0 => "0" | 1 => "1" | 2 => "2" | 3 => "3" | 4 => "4" | 5 => "5" | 6 => "6"
  | 7 => "7" | 8 => "8" | 9 => "9" | 10 => "a" | 11 => "b" | 12 => "c"
  | 13 => "d" | 14 => "e" | _ => "f"
  end%N%char.

Definition repr_char (quote c : ascii) : string :=
  if Ascii.eqb c quote || Ascii.eqb c backslash then String backslash (String c EmptyString)
  else if Ascii.eqb c "009" then String backslash "t"
  else if Ascii.eqb c "010" then String backslash "n"
  else if Ascii.eqb c "013" then String backslash "r"
  else
    let n := N_of_ascii c in
    if (n <? 32)%N || (n =? 127)%N
    then String backslash
           (String "x" (String (hex_digit (n / 16)) (String (hex_digit (n mod 16)) EmptyString)))
    else String c EmptyString.

Fixpoint repr_body (quote : ascii) (s : string) : string :=
  match s with
  | EmptyString => EmptyString
  | String c s' => repr_char quote c +:+ repr_body quote s'
  end.

Definition py_repr (s : string) : string :=
  let quote :=
    if contains_char single_quote s && negb (contains_char double_quote s)
    then double_quote else single_quote in
  String quote (repr_body quote s +:+ String quote EmptyString).

(** [str(e)].  A [pywintypes.error] prints as the [repr] of its three
    arguments as a tuple; the [MultipleErrors] case is
    [MultipleErrors.__str__]. *)
Fixpoint str (e : exn) : string :=
  match e with
  | PyWinError winerror funcname strerror =>
      "(" +:+ pretty winerror +:+ ", " +:+ py_repr funcname +:+ ", "
      +:+ py_repr strerror +:+ ")"
  | RuntimeError msg | OSError msg | ModuleNotFoundError msg => msg
  | PyException _ msg => msg
  | MultipleErrors errors =>
      "Multiple errors occurred: " +:+ join "; " (List.map str errors)
  end.

(** ** Effects *)

Inductive level : Type := DEBUG | INFO | ERROR.

Inductive event : Type :=
| Log (lvl : level) (msg : string)
| Print (msg : string)
| EventSet
| Sleep (seconds : Z)
| Call_CreateNamedPipe (pipe_name : string)
| Call_ConnectNamedPipe (h : HANDLE)
| Call_DisconnectNamedPipe (h : HANDLE)
| Call_CloseHandle (h : HANDLE)
| ThreadStart (h : HANDLE).

(** The outcome of a Python call: it returns a value or raises. *)
Inductive outcome (A : Type) : Type :=
| Return (a : A)
| Raise (e : exn).
Arguments Return {A} a.
Arguments Raise {A} e.

(** The operating system as seen through the calls the module makes.  The
    behaviour of the pipe, of its clients and of the handler threads is all
    in [World] and its transitions. *)
Class Win32 (World : Type) : Type := {
  CreateNamedPipe :
    string -> Z -> Z -> Z -> Z -> Z -> Z -> World -> outcome HANDLE * World;
  ConnectNamedPipe : HANDLE -> World -> outcome unit * World;
  DisconnectNamedPipe : HANDLE -> World -> outcome unit * World;
  CloseHandle : HANDLE -> World -> outcome unit * World;
  GetLastError : World -> Z;
  FormatMessage : Z -> string;
  (** [traceback.format_exc()] while [e] is being handled *)
  format_exc : exn -> string;
}.

(** The constants of [openjd.adaptor_runtime._background.server_config]
    that the module imports. *)
Class server_config : Type := {
  NAMED_PIPE_BUFFER_SIZE : Z;
  DEFAULT_NAMED_PIPE_TIMEOUT_MILLISECONDS : Z;
}.

(** ** The server object *)

Record NamedPipeServer : Type := {
  _server_type_name : string;
  _named_pipe_instances : list HANDLE;
  _pipe_name : string;
  (** [self._shutdown_event.is_set()] *)
  _shutdown_event : bool;
  _time_out : Z;
}.

Definition with_instances (l : list HANDLE) (s : NamedPipeServer) : NamedPipeServer :=
  {| _server_type_name := _server_type_name s;
     _named_pipe_instances := l;
     _pipe_name := _pipe_name s;
     _shutdown_event := _shutdown_event s;
     _time_out := _time_out s |}.

Definition with_shutdown_event (b : bool) (s : NamedPipeServer) : NamedPipeServer :=
  {| _server_type_name := _server_type_name s;
     _named_pipe_instances := _named_pipe_instances s;
     _pipe_name := _pipe_name s;
     _shutdown_event := b;
     _time_out := _time_out s |}.

Record machine (World : Type) : Type := Machine {
  self : NamedPipeServer;
  world : World;
  trace : list event;
}.
Arguments Machine {World} self world trace.
Arguments self {World} m.
Arguments world {World} m.
Arguments trace {World} m.

(** ** The monad: state persists when an exception is raised *)

Section Monad.
Context {St : Type}.

Definition M (A : Type) : Type := St -> outcome A * St.

Definition ret {A} (a : A) : M A := fun m => (Return a, m).

Definition bind {A B} (c : M A) (k : A -> M B) : M B :=
  fun m =>
    match c m with
    | (Return a, m') => k a m'
    | (Raise e, m') => (Raise e, m')
    end.

Definition raise {A} (e : exn) : M A := fun m => (Raise e, m).

(** [try: body  except ... as e: handler e]; a handler that matches no
    clause re-raises. *)
Definition try_except {A} (body : M A) (handler : exn -> M A) : M A :=
  fun m =>
    match body m with
    | (Return a, m') => (Return a, m')
    | (Raise e, m') => handler e m'
    end.
End Monad.
Arguments M St A : clear implicits.

Section MachineOps.
Context {World : Type}.

Definition emit (ev : event) : M (machine World) unit :=
  fun m => (Return tt, Machine (self m) (world m) (trace m ++ [ev])).

Definition get_self : M (machine World) NamedPipeServer :=
  fun m => (Return (self m), m).

Definition modify_self (f : NamedPipeServer -> NamedPipeServer) : M (machine World) unit :=
  fun m => (Return tt, Machine (f (self m)) (world m) (trace m)).

Definition get_world : M (machine World) World := fun m => (Return (world m), m).

(** A Win32 call: recorded in the trace, then answered by the world. *)
Definition syscall {A} (ev : event) (f : World -> outcome A * World)
  : M (machine World) A :=
  fun m =>
    let '(r, w') := f (world m) in
    (r, Machine (self m) w' (trace m ++ [ev])).
End MachineOps.

Notation "x <- c ; k" := (bind c (fun x => k))
  (at level 100, c at next level, right associativity, only parsing).
Notation "c ;; k" := (bind c (fun _ => k))
  (at level 100, right associativity, only parsing).

(** ** [NamedPipeServer] methods *)

(** [list.pop()]: removes and returns the last item; [None] on an empty
    list (where Python raises [IndexError], never reached below because the
    loop tests the list first). *)
Fixpoint pop {A} (l : list A) : option (A * list A) :=
  match l with
  | [] => None
  | x :: l' =>
      match pop l' with
      | None => Some (x, [])
      | Some (y, rest) => Some (y, x :: rest)
      end
  end.

Section Server.
Context {World : Type} {win32 : Win32 World} {config : server_config}.

Definition log (lvl : level) (msg : string) : M (machine World) unit :=
  emit (Log lvl msg).

Definition print (msg : string) : M (machine World) unit :=
  emit (Print msg).

(** [_create_pipe]: the security attributes, always [None], are left out of
    the call. *)
Definition _create_pipe (pipe_name : string) : M (machine World) (option HANDLE) :=
  s <- get_self;
  pipe_handle <-
    syscall (Call_CreateNamedPipe pipe_name)
      (CreateNamedPipe pipe_name
         (Z.lor win32pipe.PIPE_ACCESS_DUPLEX win32file.FILE_FLAG_OVERLAPPED)
         (Z.lor (Z.lor win32pipe.PIPE_TYPE_MESSAGE win32pipe.PIPE_READMODE_MESSAGE)
                win32pipe.PIPE_WAIT)
         win32pipe.PIPE_UNLIMITED_INSTANCES
         NAMED_PIPE_BUFFER_SIZE
         NAMED_PIPE_BUFFER_SIZE
         (_time_out s));
  if (pipe_handle =? win32file.INVALID_HANDLE_VALUE)%Z
  then ret None
  else ret (Some pipe_handle).

(** *** [shutdown] *)

(** The body of the [try] statement inside the drain loop. *)
Definition release (pipe_handle : HANDLE) : M (machine World) unit :=
  syscall (Call_DisconnectNamedPipe pipe_handle) (DisconnectNamedPipe pipe_handle);;
  syscall (Call_CloseHandle pipe_handle) (CloseHandle pipe_handle).

(** The two [except] clauses, tried in order.  The first one matches every
    [pywintypes.error]; its body is an [if] with a [pass] and no [else]. *)
Definition release_handler (error_list : list exn) (e : exn)
  : M (machine World) (list exn) :=
  match e with
  | PyWinError code _ _ =>
      if (code =? winerror.ERROR_INVALID_HANDLE)%Z
      then ret error_list
      else ret error_list
  | _ =>
      s <- get_self;
      log ERROR ("Encountered the following error while shutting down the "
                 +:+ _server_type_name s +:+ ": " +:+ format_exc e);;
      ret (error_list ++ [e])
  end.

(** [while self._named_pipe_instances: ...].  Each iteration pops one
    instance, so [n] iterations are enough for a list of length [n]. *)
Fixpoint drain (n : nat) (error_list : list exn) : M (machine World) (list exn) :=
  match n with
  | O => ret error_list
  | S n' =>
      s <- get_self;
      match pop (_named_pipe_instances s) with
      | None => ret error_list
      | Some (pipe_handle, rest) =>
          modify_self (with_instances rest);;
          error_list' <-
            try_except (release pipe_handle;; ret error_list)
                       (release_handler error_list);
          drain n' error_list'
      end
  end.

Definition shutdown : M (machine World) unit :=
  modify_self (with_shutdown_event true);;
  emit EventSet;;
  emit (Sleep 1);;
  s <- get_self;
  error_list <- drain (length (_named_pipe_instances s)) [];
  match error_list with
  | [] => ret tt
  | _ :: _ => raise (MultipleErrors error_list)
  end.

(** *** [serve_forever] *)

(** How the body of one loop iteration ends: by reaching its last statement
    or by [break]. *)
Inductive flow : Type := Normal | Break.

(** The first statements of the loop body (source lines 134-141): create
    an instance, and fail when there is none. *)
Definition open_instance : M (machine World) HANDLE :=
  s <- get_self;
  pipe_handle <- _create_pipe (_pipe_name s);
  match pipe_handle with
  | None =>
      w <- get_world;
      let error_msg :=
        "Failed to create named pipe instance: " +:+ FormatMessage (GetLastError w) in
      log ERROR error_msg;;
      raise (RuntimeError error_msg)
  | Some pipe_handle => ret pipe_handle
  end.

(** [self._named_pipe_instances.append(pipe_handle)] and the two messages
    that precede the wait (source lines 142-144). *)
Definition register_instance (pipe_handle : HANDLE) : M (machine World) unit :=
  modify_self (fun s => with_instances (_named_pipe_instances s ++ [pipe_handle]) s);;
  log DEBUG "Waiting for connection from the client...";;
  print "Waiting for connection from the client...".

(** The [except pywintypes.error as e] clause of the wait.  Any other
    exception is not caught. *)
Definition connect_handler (e : exn) : M (machine World) flow :=
  match e with
  | PyWinError code _ _ =>
      if (code =? winerror.ERROR_PIPE_NOT_CONNECTED)%Z
      then
        log INFO "NamedPipe Server is shutdown. Exit the main thread in the backend server.";;
        print "NamedPipe Server is shutdown. Exit the main thread in the backend server.";;
        ret Break
      else
        log ERROR ("Error encountered while connecting to NamedPipe: " +:+ str e +:+ " ");;
        print ("Error encountered while connecting to NamedPipe: " +:+ str e +:+ " ");;
        ret Normal
  | _ => raise e
  end.

(** The blocking wait and the statements after it (source lines 146-161):
    the [try] statement ends normally or by [break], and unless it was left
    by [break] the last two statements of the body run.  [ThreadStart h] is
    [threading.Thread(target=self.request_handler(self, h).instance_thread).start()]. *)
Definition accept_client (pipe_handle : HANDLE) : M (machine World) flow :=
  f <- try_except
         (syscall (Call_ConnectNamedPipe pipe_handle) (ConnectNamedPipe pipe_handle);;
          ret Normal)
         connect_handler;
  match f with
  | Break => ret Break
  | Normal =>
      print "Handling response";;
      emit (ThreadStart pipe_handle);;
      ret Normal
  end.

Definition serve_iteration : M (machine World) flow :=
  pipe_handle <- open_instance;
  register_instance pipe_handle;;
  accept_client pipe_handle.

(** The [while] loop; [None] when [fuel] iterations were not enough for the
    loop to end. *)
Fixpoint serve_loop (fuel : nat) : M (machine World) (option unit) :=
  match fuel with
  | O => ret None
  | S fuel' =>
      s <- get_self;
      if _shutdown_event s then ret (Some tt)
      else
        f <- serve_iteration;
        match f with
        | Break => ret (Some tt)
        | Normal => serve_loop fuel'
        end
  end.

Definition serve_forever (fuel : nat) : M (machine World) (option unit) :=
  s <- get_self;
  log INFO ("Creating Named Pipe with name: " +:+ _pipe_name s);;
  print ("Creating Named Pipe with name: " +:+ _pipe_name s);;
  serve_loop fuel.

(** *** The listener thread, one program point at a time

    [shutdown] runs on another thread while the listener is inside
    [serve_forever]; what it finds depends on where the listener is.  The
    program points are the loop test, the point between the creation of an
    instance and its [append], the blocking wait, and the two ways out. *)
Inductive pc : Type :=
| AtWhile
| AtAppend (pipe_handle : HANDLE)
| AtConnect (pipe_handle : HANDLE)
| Returned
| Raised (e : exn).

Definition serve_step (p : pc) (m : machine World) : pc * machine World :=
  match p with
  | AtWhile =>
      if _shutdown_event (self m) then (Returned, m)
      else
        match open_instance m with
        | (Return h, m') => (AtAppend h, m')
        | (Raise e, m') => (Raised e, m')
        end
  | AtAppend h =>
      match register_instance h m with
      | (Return _, m') => (AtConnect h, m')
      | (Raise e, m') => (Raised e, m')
      end
  | AtConnect h =>
      match accept_client h m with
      | (Return Normal, m') => (AtWhile, m')
      | (Return Break, m') => (Returned, m')
      | (Raise e, m') => (Raised e, m')
      end
  | Returned => (Returned, m)
  | Raised e => (Raised e, m)
  end.

(** The configurations the listener can be in before [shutdown] has run:
    it starts at the loop test, takes its own steps, and between them the
    world moves on (clients, handler threads), which does not touch the
    server object. *)
Inductive reachable (m0 : machine World) : pc -> machine World -> Prop :=
| reach_start : reachable m0 AtWhile m0
| reach_step p m p' m' :
    reachable m0 p m -> serve_step p m = (p', m') -> reachable m0 p' m'
| reach_world p m w' :
    reachable m0 p m -> reachable m0 p (Machine (self m) w' (trace m)).
End Server.

(** *** [__init__] *)

(** Attribute values of the server object. *)
Inductive value : Type :=
| VStr (s : string)
| VHandles (l : list HANDLE)
| VEvent (is_set : bool)
| VInt (z : Z).

(** [openjd.adaptor_runtime._osname.OSName] as the constructor uses it. *)
Class OSName : Type := {
  is_windows : bool;
  _get_os_name : string;
}.

Section Init.
Context {os : OSName} {config : server_config}.

(** [__init__] runs on the attribute dictionary of the new object and
    leaves in it whatever it has assigned when it raises. *)
Definition __init__ (cls_name pipe_name : string) (shutdown_event : bool)
    (self : gmap string value) : outcome unit * gmap string value :=
  let self := <["_server_type_name" := VStr cls_name]> self in
  if negb is_windows then
    (Raise (OSError (cls_name +:+ " can be only used on Windows Operating Systems. "
                     +:+ "Current Operating System is " +:+ _get_os_name)),
     self)
  else
    let self := <["_named_pipe_instances" := VHandles []]> self in
    let self := <["_pipe_name" := VStr pipe_name]> self in
    let self := <["_shutdown_event" := VEvent shutdown_event]> self in
    let self := <["_time_out" := VInt DEFAULT_NAMED_PIPE_TIMEOUT_MILLISECONDS]> self in
    (Return tt, self).

(** The record view of a fully initialised object. *)
Definition as_server (self : gmap string value) : option NamedPipeServer :=
  match self !! "_server_type_name", self !! "_named_pipe_instances",
        self !! "_pipe_name", self !! "_shutdown_event", self !! "_time_out" with
  | Some (VStr n), Some (VHandles l), Some (VStr p), Some (VEvent e), Some (VInt t) =>
      Some {| _server_type_name := n; _named_pipe_instances := l; _pipe_name := p;
              _shutdown_event := e; _time_out := t |}
  | _, _, _, _, _ => None
  end.
End Init.

(** ** Observations on traces *)

(** The handles on which a release was attempted, in order: every pass
    through the [try] block of the drain loop starts with
    [DisconnectNamedPipe]. *)
Definition release_attempt (ev : event) : option HANDLE :=
  match ev with
  | Call_DisconnectNamedPipe h => Some h
  | _ => None
  end.

Definition attempts (t : list event) : list HANDLE := omap release_attempt t.

Definition is_error_log (ev : event) : bool :=
  match ev with
  | Log ERROR _ => true
  | _ => false
  end.

(** ** A scripted operating system, for running the model

    [CreateNamedPipe] answers from a queue (an exhausted queue yields
    [INVALID_HANDLE_VALUE]); the other calls answer by handle. *)
Module Scripted.
Record script : Type := Script {
  creates : list (outcome HANDLE);
  connect : HANDLE -> outcome unit;
  disconnect : HANDLE -> outcome unit;
  close : HANDLE -> outcome unit;
  last_error : Z;
}.

#[export] Instance win32 : Win32 script := {|
  CreateNamedPipe _ _ _ _ _ _ _ w :=
    match creates w with
    | [] => (Return win32file.INVALID_HANDLE_VALUE, w)
    | r :: rs => (r, Script rs (connect w) (disconnect w) (close w) (last_error w))
    end;
  ConnectNamedPipe h w := (connect w h, w);
  DisconnectNamedPipe h w := (disconnect w h, w);
  CloseHandle h w := (close w h, w);
  GetLastError w := last_error w;
  FormatMessage code := "Win32 error " +:+ pretty code;
  format_exc e := "Traceback (most recent call last): " +:+ str e;
|}.

#[export] Instance config : server_config := {|
  NAMED_PIPE_BUFFER_SIZE := 8192;
  DEFAULT_NAMED_PIPE_TIMEOUT_MILLISECONDS := 5000;
|}.

Definition ok (_ : HANDLE) : outcome unit := Return tt.

Definition fails_on (bad : HANDLE) (e : exn) (h : HANDLE) : outcome unit :=
  if (h =? bad)%Z then Raise e else Return tt.

(** Releasing instance 2 fails with [ERROR_ACCESS_DENIED]. *)
Definition access_denied_on_2 : script :=
  Script [] ok
    (fails_on 2 (PyWinError winerror.ERROR_ACCESS_DENIED "DisconnectNamedPipe"
                            "Access is denied."))
    ok 0.

(** Releasing instance 2 fails with an exception of another class. *)
Definition value_error_on_2 : script :=
  Script [] ok (fails_on 2 (PyException "ValueError" "boom")) ok 0.

(** One instance, 7, can be created; the wait on it fails with
    [ERROR_ACCESS_DENIED]. *)
Definition access_denied_on_connect : script :=
  Script [Return 7]
    (fails_on 7 (PyWinError winerror.ERROR_ACCESS_DENIED "ConnectNamedPipe"
                            "Access is denied."))
    ok ok 0.

(** One instance, 7, can be created; the wait on it fails with
    [ERROR_PIPE_NOT_CONNECTED]. *)
Definition torn_down_on_connect : script :=
  Script [Return 7]
    (fails_on 7 (PyWinError winerror.ERROR_PIPE_NOT_CONNECTED "ConnectNamedPipe"
                            "No process is on the other end of the pipe."))
    ok ok 0.

(** No instance can be created; the last error is [ERROR_NO_DATA]. *)
Definition no_instance : script := Script [] ok ok ok winerror.ERROR_NO_DATA.

Definition linux : OSName := {| is_windows := false; _get_os_name := "Linux" |}.
Definition windows : OSName := {| is_windows := true; _get_os_name := "Windows" |}.

Definition server (instances : list HANDLE) (stopped : bool) : NamedPipeServer :=
  {| _server_type_name := "FakeServer";
     _named_pipe_instances := instances;
     _pipe_name := "\\.\pipe\adaptor";
     _shutdown_event := stopped;
     _time_out := 5000 |}.
End Scripted.

(** ** The entry point

    [openjd.adaptor_runtime._entrypoint] is exercised by
    [test_entrypoint.py]; the two paths below are the ones those tests and
    the specification describe. *)
Module EntryPoint.

(** The adaptor behind the [_start], [_run], [_stop] and [_cleanup]
    wrappers that the tests patch; [A] is the state of the wrapped
    application. *)
Class Adaptor (A : Type) : Type := {
  _start : A -> outcome unit * A;
  _run : gmap string string -> A -> outcome unit * A;
  _stop : A -> outcome unit * A;
  _cleanup : A -> outcome unit * A;
}.

Inductive adaptor_call : Type :=
| Start
| Run (run_data : gmap string string)
| Stop
| Cleanup.

Inductive entry_event : Type :=
| Called (c : adaptor_call)
| Logged (lvl : level) (msg : string).

Record process (A : Type) : Type := Process {
  adaptor : A;
  history : list entry_event;
}.
Arguments Process {A} adaptor history.
Arguments adaptor {A} p.
Arguments history {A} p.

Section Foreground.
Context {A : Type} {adaptor_cls : Adaptor A}.

Definition call (c : adaptor_call) (f : A -> outcome unit * A) : M (process A) unit :=
  fun p =>
    let '(r, a') := f (adaptor p) in
    (r, Process a' (history p ++ [Called c])).

Definition logged (lvl : level) (msg : string) : M (process A) unit :=
  fun p => (Return tt, Process (adaptor p) (history p ++ [Logged lvl msg])).

(** Modelled from the spec: the foreground ([run]) command of
    [EntryPoint.start], whose source is not part of this development.  The
    adaptor is started, run on the run data, stopped and cleaned up; a
    failure inside start, run or stop is logged and triggers a best-effort
    cleanup before it propagates; a failure of that cleanup is logged too
    and is the one that propagates (section 7 of the specification and
    [TestStart.test_runs_in_run_mode], [test_raises_adaptor_exception],
    [test_raises_adaptor_cleanup_exception]). *)
Definition run_foreground (run_data : gmap string string) : M (process A) unit :=
  try_except
    (call Start _start;;
     call (Run run_data) (_run run_data);;
     call Stop _stop)
    (fun e =>
       logged ERROR ("Error running the adaptor: " +:+ str e);;
       try_except
         (call Cleanup _cleanup)
         (fun e' =>
            logged ERROR ("Error cleaning up the adaptor: " +:+ str e');;
            raise e');;
       raise e);;
  call Cleanup _cleanup.
End Foreground.

(** [os.path.isabs] and [os.path.abspath], which the tests patch. *)
Class os_path : Type := {
  isabs : string -> bool;
  abspath : string -> string;
}.

Inductive frontend_call : Type :=
| FrontendRunner_new (connection_file : string)
| FrontendRunner_init
| FrontendRunner_start
| FrontendRunner_run (run_data : gmap string string)
| FrontendRunner_stop
| FrontendRunner_shutdown.

Section Daemon.
Context {path : os_path}.

(** Modelled from the spec: the frontend side of the [daemon] command of
    [EntryPoint.start], whose source is not part of this development.  A
    relative connection-descriptor path is made absolute before use, the
    Frontend Runner is constructed with the path, and the subcommand is
    relayed; [start] fails fast when the adaptor module is not loaded
    (sections 4.4 and 6 of the specification and
    [TestStart.test_makes_connection_file_path_absolute],
    [test_runs_background_start], [test_runs_background_run],
    [test_runs_background_stop],
    [test_background_start_raises_when_adaptor_module_not_loaded]). *)
Definition daemon_frontend (subcommand connection_file : string)
    (run_data : gmap string string) (adaptor_module : option string)
    (module_name : string)
  : outcome unit * list frontend_call :=
  let connection_file :=
    if isabs connection_file then connection_file else abspath connection_file in
  let frontend := [FrontendRunner_new connection_file] in
  if String.eqb subcommand "start" then
    match adaptor_module with
    | None =>
        (Raise (ModuleNotFoundError ("Adaptor module is not loaded: " +:+ module_name)),
         frontend)
    | Some _ =>
        (Return tt, frontend ++ [FrontendRunner_init; FrontendRunner_start])
    end
  else if String.eqb subcommand "run" then
    (Return tt, frontend ++ [FrontendRunner_run run_data])
  else if String.eqb subcommand "stop" then
    (Return tt, frontend ++ [FrontendRunner_stop; FrontendRunner_shutdown])
  else
    (Return tt, frontend).
End Daemon.

(** POSIX paths relative to a working directory [cwd]: a path is absolute
    when it starts with a slash, and a relative path is joined to [cwd]
    (the normalisation of dot segments that [abspath] also performs is left
    out). *)
Definition posix_isabs (path : string) : bool :=
  match path with
  | String c _ => Ascii.eqb c "/"%char
  | EmptyString => false
  end.

(** [posixpath.join(a, b)] *)
Fixpoint ends_with_slash (s : string) : bool :=
  match s with
  | EmptyString => false
  | String c EmptyString => Ascii.eqb c "/"%char
  | String _ s' => ends_with_slash s'
  end.

Definition posix_join (a b : string) : string :=
  if posix_isabs b then b
  else
    match a with
    | EmptyString => b
    | _ => if ends_with_slash a then a +:+ b else a +:+ "/" +:+ b
    end.

(** [path.split("/")] *)
Fixpoint split_slash (path : string) : list string :=
  match path with
  | EmptyString => [EmptyString]
  | String c path' =>
      if Ascii.eqb c "/"%char then EmptyString :: split_slash path'
      else
        match split_slash path' with
        | [] => [String c EmptyString]
        | comp :: comps => String c comp :: comps
        end
  end.

(** One or two initial slashes count as such; three or more count as one. *)
Definition initial_slashes (path : string) : nat :=
  match path with
  | String "/" (String "/" (String "/" _)) => 1
  | String "/" (String "/" _) => 2
  | String "/" _ => 1
  | _ => 0
  end%nat.

(** One step of the loop of [posixpath.normpath] over the components;
    [new_comps] is kept with its last component first. *)
Definition push_comp (slashes : nat) (new_comps : list string) (comp : string)
  : list string :=
  if String.eqb comp EmptyString || String.eqb comp "." then new_comps
  else if negb (String.eqb comp "..") then comp :: new_comps
  else
    match new_comps with
    | [] => match slashes with O => comp :: new_comps | S _ => new_comps end
    | last :: rest => if String.eqb last ".." then comp :: new_comps else rest
    end.

(** [posixpath.normpath(path)] *)
Definition posix_normpath (path : string) : string :=
  match path with
  | EmptyString => "."
  | _ =>
      let slashes := initial_slashes path in
      let comps := rev (fold_left (push_comp slashes) (split_slash path) []) in
      match slashes with
      | O => match join "/" comps with EmptyString => "." | p => p end
      | S O => String "/" (join "/" comps)
      | S (S _) => String "/" (String "/" (join "/" comps))
      end
  end.

(** [posixpath.abspath(path)] in the working directory [cwd]. *)
Definition posix_abspath (cwd path : string) : string :=
  posix_normpath (if posix_isabs path then path else posix_join cwd path).

Definition posix (cwd : string) : os_path :=
  {| isabs := posix_isabs; abspath := posix_abspath cwd |}.

(** A scripted adaptor: the state is the list of answers still to give,
    one per call, whatever the call is. *)
Definition answer (script : list (outcome unit)) : outcome unit * list (outcome unit) :=
  match script with
  | [] => (Return tt, [])
  | r :: rest => (r, rest)
  end.

Definition scripted_adaptor : Adaptor (list (outcome unit)) :=
  {| _start := answer; _run := fun _ => answer; _stop := answer; _cleanup := answer |}.
End EntryPoint.

(** ** Further observations on traces and on the world *)

(** The handles on which a wait for a client was begun, the handles given
    to a handler thread and the handles closed, each in order. *)
Definition wait_begun (ev : event) : option HANDLE :=
  match ev with
  | Call_ConnectNamedPipe h => Some h
  | _ => None
  end.

Definition waits (t : list event) : list HANDLE := omap wait_begun t.

Definition thread_started (ev : event) : option HANDLE :=
  match ev with
  | ThreadStart h => Some h
  | _ => None
  end.

Definition handled (t : list event) : list HANDLE := omap thread_started t.

Definition close_called (ev : event) : option HANDLE :=
  match ev with
  | Call_CloseHandle h => Some h
  | _ => None
  end.

Definition closes (t : list event) : list HANDLE := omap close_called t.

(** [isinstance(e, pywintypes.error)] *)
Definition is_pywintypes_error (e : exn) : bool :=
  match e with
  | PyWinError _ _ _ => true
  | _ => false
  end.

(** What a release failure contributes to the error list of [shutdown]. *)
Definition failure_of (r : outcome unit) : list exn :=
  match r with
  | Return _ => []
  | Raise e => if is_pywintypes_error e then [] else [e]
  end.

Section ReleaseAnswers.
Context {World : Type} {win32 : Win32 World}.

(** The answer of the world to the release of one instance:
    [DisconnectNamedPipe], and [CloseHandle] when that returned. *)
Definition release_answer (h : HANDLE) (w : World) : outcome unit * World :=
  match DisconnectNamedPipe h w with
  | (Return _, w1) => CloseHandle h w1
  | (Raise e, w1) => (Raise e, w1)
  end.

(** The failures that are not [pywintypes.error], met while releasing the
    handles [hs] one after the other from the world [w]. *)
Fixpoint reported_failures (hs : list HANDLE) (w : World) : list exn :=
  match hs with
  | [] => []
  | h :: hs' =>
      failure_of (fst (release_answer h w))
      ++ reported_failures hs' (snd (release_answer h w))
  end.
(** The world after the handles [hs] have been released one after the
    other from the world [w]. *)
Fixpoint released_world (hs : list HANDLE) (w : World) : World :=
  match hs with
  | [] => w
  | h :: hs' => released_world hs' (snd (release_answer h w))
  end.

(** What the release of one instance by [shutdown] shows, in order: the
    call of [DisconnectNamedPipe], the call of [CloseHandle] when the
    disconnect returned, and the ERROR record when the release failed with
    an exception that is not a [pywintypes.error]. *)
Definition release_events (server_type_name : string) (h : HANDLE) (w : World)
  : list event :=
  Call_DisconnectNamedPipe h
  :: match fst (DisconnectNamedPipe h w) with
     | Return _ => [Call_CloseHandle h]
     | Raise _ => []
     end
  ++ List.map
       (fun e => Log ERROR ("Encountered the following error while shutting down the "
                            +:+ server_type_name +:+ ": " +:+ format_exc e))
       (failure_of (fst (release_answer h w))).

(** The same for the handles [hs], released one after the other. *)
Fixpoint drain_events (server_type_name : string) (hs : list HANDLE) (w : World)
  : list event :=
  match hs with
  | [] => []
  | h :: hs' =>
      release_events server_type_name h w
      ++ drain_events server_type_name hs' (snd (release_answer h w))
  end.
End ReleaseAnswers.

(** Further scripts for the scripted operating system. *)
Module Scenarios.
(** One instance, 7, can be created; the wait on it fails with an
    exception that is not a [pywintypes.error]. *)
Definition type_error_on_connect : Scripted.script :=
  Scripted.Script [Return 7]
    (Scripted.fails_on 7 (PyException "TypeError" "The object is not a PyHANDLE object"))
    Scripted.ok Scripted.ok 0.

(** [CreateNamedPipe] itself raises. *)
Definition create_raises : Scripted.script :=
  Scripted.Script
    [Raise (PyWinError winerror.ERROR_ACCESS_DENIED "CreateNamedPipe" "Access is denied.")]
    Scripted.ok Scripted.ok Scripted.ok 0.

(** Instances 7 and 8 can be created and a client connects to each. *)
Definition two_clients : Scripted.script :=
  Scripted.Script [Return 7; Return 8] Scripted.ok Scripted.ok Scripted.ok 0.
End Scenarios.

(** * Properties *)

(** ** Tactics and basic facts *)

Ltac unfold_monad :=
  unfold log, print in *;
  unfold bind, ret, raise, try_except, emit, get_self, get_world,
    modify_self, syscall in *.

Lemma pop_snoc {A} (l : list A) (x : A) : pop (l ++ [x]) = Some (x, l).
Proof.
  induction l as [|y l IH]; simpl; [reflexivity|].
  rewrite IH. reflexivity.
Qed.

Lemma pop_nil_inv {A} (l : list A) : pop l = None -> l = [].
Proof.
  destruct l as [|x l]; [reflexivity|]. simpl.
  destruct (pop l) as [[y rest]|]; discriminate.
Qed.

Lemma attempts_app (t1 t2 : list event) :
  attempts (t1 ++ t2) = attempts t1 ++ attempts t2.
Proof. unfold attempts. apply omap_app. Qed.

Section ShutdownFacts.
Context {World : Type} {win32 : Win32 World} {config : server_config}.

(** One pass through the [try] statement never raises, leaves the server
    object alone and attempts the release of exactly its handle. *)
Lemma release_pass (h : HANDLE) (errs : list exn) (m : machine World) :
  exists errs' m' t,
    try_except (release h;; ret errs) (release_handler errs) m = (Return errs', m')
    /\ self m' = self m
    /\ trace m' = trace m ++ t
    /\ attempts t = [h].
Proof.
  unfold release, release_handler. unfold_monad. simpl.
  destruct (DisconnectNamedPipe h (world m)) as [[[]|e] w1] eqn:Hd; simpl.
  - destruct (CloseHandle h w1) as [[[]|e] w2] eqn:Hc; simpl.
    + eexists _, _, [_; _]. rewrite <- app_assoc. repeat split.
    + destruct e; simpl;
        try (destruct (_ =? _)%Z);
        try (eexists _, _, [_; _]; rewrite <- app_assoc; repeat split; fail);
        (eexists _, _, [_; _; _]; rewrite <- !app_assoc; repeat split).
  - destruct e; simpl;
      try (destruct (_ =? _)%Z);
      try (eexists _, _, [_]; repeat split; fail);
      (eexists _, _, [_; _]; rewrite <- !app_assoc; repeat split).
Qed.

(** The drain loop, run for as many iterations as there are pending
    instances, ends because the list is empty, having attempted the release
    of each instance once, last one first. *)
Lemma drain_spec (n : nat) :
  forall (errs : list exn) (m : machine World),
    n = length (_named_pipe_instances (self m)) ->
    exists errs' m' t,
      drain n errs m = (Return errs', m')
      /\ self m' = with_instances [] (self m)
      /\ trace m' = trace m ++ t
      /\ attempts t = rev (_named_pipe_instances (self m)).
Proof.
  induction n as [|n IH]; intros errs m Hn.
  - symmetry in Hn. apply length_zero_iff_nil in Hn.
    exists errs, m, []. simpl. unfold_monad. rewrite app_nil_r, Hn.
    repeat split. destruct m as [[] ? ?]; simpl in *. subst. reflexivity.
  - destruct (_named_pipe_instances (self m)) as [|x l] eqn:Hl using rev_ind;
      [discriminate|]. clear IHl.
    rewrite length_app in Hn. simpl in Hn.
    simpl. unfold bind at 1. unfold get_self at 1. rewrite Hl, pop_snoc.
    unfold bind at 1. unfold modify_self at 1.
    set (m1 := Machine (with_instances l (self m)) (world m) (trace m)).
    unfold bind at 1.
    destruct (release_pass x errs m1) as (errs1 & m2 & t1 & Hr & Hs & Ht & Ha).
    rewrite Hr.
    destruct (IH errs1 m2) as (errs2 & m3 & t2 & Hd & Hs3 & Ht3 & Ha3).
    { rewrite Hs. simpl. lia. }
    exists errs2, m3, (t1 ++ t2). repeat split.
    + exact Hd.
    + rewrite Hs3, Hs. reflexivity.
    + rewrite Ht3, Ht. simpl. rewrite <- app_assoc. reflexivity.
    + rewrite attempts_app, Ha, Ha3, Hs. simpl. rewrite rev_app_distr. reflexivity.
Qed.

(** [shutdown] in one equation: it returns or raises the aggregate
    according to the collected list, and leaves the event set, the pending
    list empty and the trace extended by the signal, the pause and the
    drain. *)
Lemma shutdown_spec (m : machine World) :
  exists errs m' t,
    shutdown m =
      (match errs with [] => Return tt | _ :: _ => Raise (MultipleErrors errs) end, m')
    /\ self m' = with_instances [] (with_shutdown_event true (self m))
    /\ trace m' = trace m ++ EventSet :: Sleep 1 :: t
    /\ attempts t = rev (_named_pipe_instances (self m)).
Proof.
  unfold shutdown.
  unfold bind at 1. unfold modify_self at 1.
  unfold bind at 1. unfold emit at 1. cbn [self world trace].
  unfold bind at 1. unfold emit at 1. cbn [self world trace].
  unfold bind at 1. unfold get_self at 1. cbn [self world trace].
  set (m1 := Machine (with_shutdown_event true (self m)) (world m)
                     ((trace m ++ [EventSet]) ++ [Sleep 1])).
  destruct (drain_spec (length (_named_pipe_instances (self m1))) [] m1 eq_refl)
    as (errs & m2 & t & Hd & Hs & Ht & Ha).
  exists errs, m2, t. unfold bind. cbn [with_shutdown_event _named_pipe_instances].
  change (_named_pipe_instances (self m))
    with (_named_pipe_instances (self m1)) at 1.
  rewrite Hd. repeat split.
  - destruct errs; reflexivity.
  - exact Hs.
  - rewrite Ht. subst m1. cbn [trace]. rewrite <- !app_assoc. reflexivity.
  - exact Ha.
Qed.
End ShutdownFacts.

Section ShutdownTheorems.
Context {World : Type} {win32 : Win32 World} {config : server_config}.

(** The first [except] clause catches every [pywintypes.error] and does
    nothing with it, whatever its code. *)
Lemma release_handler_pywintypes (errs : list exn) (code : Z) (f s : string)
    (m : machine World) :
  release_handler errs (PyWinError code f s) m = (Return errs, m).
Proof.
  unfold release_handler. destruct (code =? winerror.ERROR_INVALID_HANDLE)%Z; reflexivity.
Qed.

(** With one pending instance whose disconnect raises a
    [pywintypes.error], [shutdown] returns normally and logs nothing,
    whatever the error code is. *)
Lemma shutdown_drops_any_pywintypes_failure (m : machine World) (h code : Z)
    (f s : string) (w1 : World) :
  _named_pipe_instances (self m) = [h] ->
  DisconnectNamedPipe h (world m) = (Raise (PyWinError code f s), w1) ->
  shutdown m =
    (Return tt,
     Machine (with_instances [] (with_shutdown_event true (self m))) w1
       (trace m ++ [EventSet; Sleep 1; Call_DisconnectNamedPipe h])).
Proof.
  intros Hl Hd. unfold shutdown.
  unfold bind at 1. unfold modify_self at 1.
  unfold bind at 1. unfold emit at 1. cbn [self world trace].
  unfold bind at 1. unfold emit at 1. cbn [self world trace].
  unfold bind at 1. unfold get_self at 1.
  cbn [self world trace with_shutdown_event _named_pipe_instances].
  rewrite Hl. cbn [length drain].
  unfold release. unfold_monad.
  cbn [self world trace with_shutdown_event _named_pipe_instances].
  rewrite Hl. cbn [pop self world trace].
  rewrite Hd. cbn [self world trace with_instances].
  rewrite release_handler_pywintypes. rewrite <- !app_assoc. reflexivity.
Qed.

(** One pass through the [try] statement, as an equation. *)
Lemma release_pass_exact (h : HANDLE) (errs : list exn) (m : machine World) :
  try_except (release h;; ret errs) (release_handler errs) m
  = (Return (errs ++ failure_of (fst (release_answer h (world m)))),
     Machine (self m) (snd (release_answer h (world m)))
       (trace m ++ release_events (_server_type_name (self m)) h (world m))).
Proof.
  unfold release_events, release, release_handler, release_answer. unfold_monad.
  cbn [self world trace].
  destruct (DisconnectNamedPipe h (world m)) as [[[]|e] w1] eqn:Hd; cbn [self world trace fst snd].
  - destruct (CloseHandle h w1) as [[[]|e] w2] eqn:Hc; cbn [self world trace fst snd].
    + rewrite <- !app_assoc, app_nil_r. reflexivity.
    + destruct e as [code ? ?| | | | |];
        try destruct (code =? winerror.ERROR_INVALID_HANDLE)%Z;
        cbn [self world trace failure_of is_pywintypes_error List.map];
        rewrite <- ?app_assoc, ?app_nil_r; reflexivity.
  - destruct e as [code ? ?| | | | |];
      try destruct (code =? winerror.ERROR_INVALID_HANDLE)%Z;
      cbn [self world trace failure_of is_pywintypes_error List.map app];
      rewrite <- ?app_assoc, ?app_nil_r; reflexivity.
Qed.

(** The drain loop, as an equation: the error list, the server object, the
    world and the trace it ends with. *)
Lemma drain_exact (n : nat) :
  forall (errs : list exn) (m : machine World),
    n = length (_named_pipe_instances (self m)) ->
    drain n errs m
    = (Return (errs ++ reported_failures (rev (_named_pipe_instances (self m))) (world m)),
       Machine (with_instances [] (self m))
         (released_world (rev (_named_pipe_instances (self m))) (world m))
         (trace m ++ drain_events (_server_type_name (self m))
                       (rev (_named_pipe_instances (self m))) (world m))).
Proof.
  induction n as [|n IH]; intros errs m Hn.
  - symmetry in Hn. apply length_zero_iff_nil in Hn. rewrite Hn.
    cbn [drain rev reported_failures released_world drain_events]. unfold ret.
    rewrite !app_nil_r. destruct m as [[] ? ?]. cbn in *. subst. reflexivity.
  - destruct (_named_pipe_instances (self m)) as [|x l] eqn:Hl using rev_ind;
      [discriminate|]. clear IHl.
    rewrite length_app in Hn. simpl in Hn.
    cbn [drain]. unfold bind at 1. unfold get_self at 1. rewrite Hl, pop_snoc.
    unfold bind at 1. unfold modify_self at 1.
    unfold bind at 1. rewrite release_pass_exact. cbn [self world trace].
    rewrite IH by (cbn [self with_instances _named_pipe_instances]; lia).
    cbn [self world trace with_instances _named_pipe_instances _server_type_name].
    rewrite rev_app_distr.
    cbn [rev app reported_failures released_world drain_events].
    rewrite <- !app_assoc. reflexivity.
Qed.

(** [shutdown], as an equation. *)
Lemma shutdown_exact (m : machine World) :
  shutdown m
  = (match reported_failures (rev (_named_pipe_instances (self m))) (world m) with
     | [] => Return tt
     | e :: errs => Raise (MultipleErrors (e :: errs))
     end,
     Machine (with_instances [] (with_shutdown_event true (self m)))
       (released_world (rev (_named_pipe_instances (self m))) (world m))
       (trace m ++ EventSet :: Sleep 1
                   :: drain_events (_server_type_name (self m))
                        (rev (_named_pipe_instances (self m))) (world m))).
Proof.
  unfold shutdown.
  unfold bind at 1. unfold modify_self at 1.
  unfold bind at 1. unfold emit at 1. cbn [self world trace].
  unfold bind at 1. unfold emit at 1. cbn [self world trace].
  unfold bind at 1. unfold get_self at 1. cbn [self world trace].
  unfold bind at 1. rewrite drain_exact by reflexivity.
  cbn [self world trace with_shutdown_event with_instances _named_pipe_instances
       _server_type_name app].
  rewrite <- !app_assoc. cbn [app].
  destruct (reported_failures _ _); reflexivity.
Qed.

Lemma attempts_release_events (name : string) (h : HANDLE) (w : World) :
  attempts (release_events name h w) = [h].
Proof.
  unfold release_events.
  change (attempts (Call_DisconnectNamedPipe h :: ?t)) with (h :: attempts t).
  rewrite attempts_app.
  assert (Hlogs : forall l : list exn,
            attempts (List.map
              (fun e => Log ERROR ("Encountered the following error while shutting down the "
                                   +:+ name +:+ ": " +:+ format_exc e)) l) = []).
  { induction l as [|e l IHl]; [reflexivity|exact IHl]. }
  rewrite Hlogs. destruct (fst (DisconnectNamedPipe h w)); reflexivity.
Qed.

Lemma attempts_drain_events (name : string) (hs : list HANDLE) :
  forall w : World, attempts (drain_events name hs w) = hs.
Proof.
  induction hs as [|h hs IH]; intros w; [reflexivity|].
  cbn [drain_events]. rewrite attempts_app, attempts_release_events, IH. reflexivity.
Qed.

(** C6: [shutdown] sets the shutdown event before anything else, then
    drains: whether it returns or raises the aggregate, every instance that
    was pending has been released exactly once, the last pending first, and
    the pending list is empty.  The release of an instance is the call of
    [DisconnectNamedPipe] on it followed, when that call returned, by the
    call of [CloseHandle] on it: the trace after the pause is exactly those
    calls (with the ERROR record of each failure that is reported), and the
    world is the one they leave. *)
Theorem shutdown_signals_then_releases_each_once (m : machine World) :
  exists r m' t,
    shutdown m = (r, m')
    /\ (r = Return tt \/ exists errs, errs <> [] /\ r = Raise (MultipleErrors errs))
    /\ trace m' = trace m ++ EventSet :: Sleep 1 :: t
    /\ t = drain_events (_server_type_name (self m))
             (rev (_named_pipe_instances (self m))) (world m)
    /\ world m' = released_world (rev (_named_pipe_instances (self m))) (world m)
    /\ attempts t = rev (_named_pipe_instances (self m))
    /\ Permutation (attempts t) (_named_pipe_instances (self m))
    /\ _named_pipe_instances (self m') = []
    /\ _shutdown_event (self m') = true.
Proof.
  eexists _, _, _. split; [apply shutdown_exact|].
  split.
  { destruct (reported_failures _ _) as [|e errs]; [left; reflexivity|].
    right. exists (e :: errs). split; [discriminate|reflexivity]. }
  cbn [self world trace]. split; [reflexivity|]. split; [reflexivity|].
  split; [reflexivity|]. rewrite attempts_drain_events.
  split; [reflexivity|]. split; [symmetry; apply Permutation_rev|].
  split; reflexivity.
Qed.

(** C5: a second [shutdown] after a completed first one returns without
    raising, attempts no release and logs nothing, and leaves the server
    object exactly as the first call left it: event set, no pending
    instance. *)
Theorem shutdown_idempotent (m : machine World) :
  let m1 := snd (shutdown m) in
  shutdown m1 =
    (Return tt, Machine (self m1) (world m1) (trace m1 ++ [EventSet; Sleep 1]))
  /\ _shutdown_event (self m1) = true
  /\ _named_pipe_instances (self m1) = [].
Proof.
  destruct (shutdown_spec m) as (errs & m1 & t & Hs & Hself & Ht & Ha).
  rewrite Hs. cbn [snd]. clear Hs.
  split; [|rewrite Hself; split; reflexivity].
  unfold shutdown. unfold_monad. cbn [self world trace].
  assert (Hfix : with_shutdown_event true (self m1) = self m1).
  { rewrite Hself. reflexivity. }
  rewrite Hfix.
  assert (Hnil : _named_pipe_instances (self m1) = []).
  { rewrite Hself. reflexivity. }
  rewrite Hnil. simpl. rewrite <- app_assoc. reflexivity.
Qed.
End ShutdownTheorems.


Section ServeFacts.
Context {World : Type} {win32 : Win32 World} {config : server_config}.

(** [_create_pipe] makes one Win32 call and does not touch the server
    object. *)
Lemma _create_pipe_inv (name : string) (m m1 : machine World) (r : outcome (option HANDLE)) :
  _create_pipe name m = (r, m1) ->
  self m1 = self m /\ trace m1 = trace m ++ [Call_CreateNamedPipe name].
Proof.
  unfold _create_pipe. unfold_monad. cbn [self world trace].
  destruct (CreateNamedPipe _ _ _ _ _ _ _ (world m)) as [[h|e] w1]; cbn [self world trace].
  - destruct (h =? win32file.INVALID_HANDLE_VALUE)%Z; intros [= <- <-]; split; reflexivity.
  - intros [= <- <-]; split; reflexivity.
Qed.

(** [_create_pipe] answers [None] exactly when [CreateNamedPipe] returned
    the invalid handle. *)
Lemma _create_pipe_None (name : string) (m m1 : machine World) :
  _create_pipe name m = (Return None, m1) <->
  exists w1,
    CreateNamedPipe name
      (Z.lor win32pipe.PIPE_ACCESS_DUPLEX win32file.FILE_FLAG_OVERLAPPED)
      (Z.lor (Z.lor win32pipe.PIPE_TYPE_MESSAGE win32pipe.PIPE_READMODE_MESSAGE)
             win32pipe.PIPE_WAIT)
      win32pipe.PIPE_UNLIMITED_INSTANCES NAMED_PIPE_BUFFER_SIZE NAMED_PIPE_BUFFER_SIZE
      (_time_out (self m)) (world m)
    = (Return win32file.INVALID_HANDLE_VALUE, w1)
    /\ m1 = Machine (self m) w1 (trace m ++ [Call_CreateNamedPipe name]).
Proof.
  unfold _create_pipe. unfold_monad. cbn [self world trace].
  destruct (CreateNamedPipe _ _ _ _ _ _ _ (world m)) as [[h|e] w1]; cbn [self world trace].
  - destruct (h =? win32file.INVALID_HANDLE_VALUE)%Z eqn:E; split.
    + intros [= <-]. apply Z.eqb_eq in E. subst h. eexists; split; reflexivity.
    + intros (w & [= -> <-] & ->). reflexivity.
    + discriminate.
    + intros (w & [= -> <-] & ->). discriminate.
  - split; [discriminate|]. intros (w & Hw & _). discriminate.
Qed.

Lemma open_instance_inv (m m1 : machine World) (r : outcome HANDLE) :
  open_instance m = (r, m1) ->
  self m1 = self m
  /\ exists t, trace m1 = trace m ++ t /\ forall h, ~ In (ThreadStart h) t.
Proof.
  unfold open_instance. unfold bind at 1. unfold get_self at 1.
  unfold bind at 1.
  destruct (_create_pipe (_pipe_name (self m)) m) as [[[h|]|e] m'] eqn:Hc;
    apply _create_pipe_inv in Hc as [Hs Ht]; unfold_monad; cbn [self world trace].
  - intros [= <- <-]. split; [exact Hs|]. eexists; split; [exact Ht|].
    intros h' [?|[]]; discriminate.
  - intros [= <- <-]. cbn [self trace]. split; [exact Hs|].
    eexists [_; _]. rewrite Ht, <- app_assoc. split; [reflexivity|].
    intros h' [?|[?|[]]]; discriminate.
  - intros [= <- <-]. split; [exact Hs|]. eexists; split; [exact Ht|].
    intros h' [?|[]]; discriminate.
Qed.

Lemma accept_client_inv (h : HANDLE) (m m1 : machine World) (r : outcome flow) :
  accept_client h m = (r, m1) ->
  self m1 = self m
  /\ exists t, trace m1 = trace m ++ t
               /\ forall h', In (ThreadStart h') t -> h' = h.
Proof.
  unfold accept_client, connect_handler. unfold_monad. cbn [self world trace].
  destruct (ConnectNamedPipe h (world m)) as [[[]|e] w1]; cbn [self world trace].
  - intros [= <- <-]. split; [reflexivity|]. eexists [_; _; _].
    rewrite <- !app_assoc. split; [reflexivity|].
    intros h' [?|[?|[[= ->]|[]]]]; try discriminate. reflexivity.
  - destruct e; try (intros [= <- <-]; split; [reflexivity|];
                     eexists [_]; split; [reflexivity|];
                     intros h' [?|[]]; discriminate).
    destruct (winerror =? winerror.ERROR_PIPE_NOT_CONNECTED)%Z; cbn [self world trace];
      intros [= <- <-]; (split; [reflexivity|]).
    + eexists [_; _; _]. rewrite <- !app_assoc. split; [reflexivity|].
      intros h' [?|[?|[?|[]]]]; discriminate.
    + eexists [_; _; _; _; _]. rewrite <- !app_assoc. split; [reflexivity|].
      intros h' [?|[?|[?|[?|[[= ->]|[]]]]]]; try discriminate. reflexivity.
Qed.

(** A connect failure that is a [pywintypes.error] other than
    [ERROR_PIPE_NOT_CONNECTED] is logged, after which the iteration goes on
    to its last statements and starts a handler thread on the instance. *)
Lemma accept_client_after_logged_failure (h code : Z) (f s : string) (m : machine World)
    (w1 : World) :
  ConnectNamedPipe h (world m) = (Raise (PyWinError code f s), w1) ->
  code <> winerror.ERROR_PIPE_NOT_CONNECTED ->
  let msg := "Error encountered while connecting to NamedPipe: "
             +:+ str (PyWinError code f s) +:+ " " in
  accept_client h m =
    (Return Normal,
     Machine (self m) w1
       (trace m ++ [Call_ConnectNamedPipe h; Log ERROR msg; Print msg;
                    Print "Handling response"; ThreadStart h])).
Proof.
  intros Hc Hne. unfold accept_client, connect_handler. unfold_monad.
  cbn [self world trace]. rewrite Hc.
  apply Z.eqb_neq in Hne. rewrite Hne. cbn [self world trace].
  rewrite <- !app_assoc. reflexivity.
Qed.

(** Three steps of the listener from the loop test are one iteration of
    the loop body. *)
Lemma serve_steps_iteration (m : machine World) :
  _shutdown_event (self m) = false ->
  (let '(p1, m1) := serve_step AtWhile m in
   let '(p2, m2) := serve_step p1 m1 in
   serve_step p2 m2)
  = match serve_iteration m with
    | (Return Normal, m') => (AtWhile, m')
    | (Return Break, m') => (Returned, m')
    | (Raise e, m') => (Raised e, m')
    end.
Proof.
  intros Hev. unfold serve_iteration. cbn [serve_step]. rewrite Hev.
  unfold bind at 1.
  destruct (open_instance m) as [[h|e] m1]; [|reflexivity].
  cbn [serve_step]. unfold bind at 1.
  destruct (register_instance h m1) as [[[]|e] m2]; [|reflexivity].
  cbn [serve_step]. destruct (accept_client h m2) as [[[]|e] m3]; reflexivity.
Qed.

(** What the listener has done since [m0]: the pending list and the trace
    have only grown; the instance it waits on, every instance on which a
    wait was begun and every instance handed to a handler thread are among
    the instances appended. *)
Lemma reachable_invariant (m0 : machine World) (p : pc) (m : machine World) :
  reachable m0 p m ->
  exists l t,
    _named_pipe_instances (self m) = _named_pipe_instances (self m0) ++ l
    /\ trace m = trace m0 ++ t
    /\ (forall h, p = AtConnect h -> In h l)
    /\ (forall h, In (ThreadStart h) t -> In h l).
Proof.
  induction 1 as [|p m p' m' Hr (l & t & Hl & Ht & Hp & Hth) Hstep
                  |p m w' Hr (l & t & Hl & Ht & Hp & Hth)].
  - exists [], []. rewrite !app_nil_r. repeat split; [discriminate|intros ? []].
  - destruct p as [|h|h| |e]; cbn [serve_step] in Hstep.
    + destruct (_shutdown_event (self m)).
      { injection Hstep as <- <-. exists l, t. repeat split; auto; discriminate. }
      destruct (open_instance m) as [r m1] eqn:Ho.
      apply open_instance_inv in Ho as (Hs & t1 & Ht1 & Hno).
      assert (Hm : m' = m1) by (destruct r; injection Hstep; auto).
      assert (Hp' : forall h', p' <> AtConnect h')
        by (destruct r; injection Hstep as <- _; discriminate).
      subst m'. exists l, (t ++ t1). rewrite Hs, Ht1, Ht, Hl, <- app_assoc.
      repeat split.
      * intros h' E. destruct (Hp' _ E).
      * intros h' Hin. apply in_app_or in Hin as [Hin|Hin]; [auto|].
        destruct (Hno _ Hin).
    + unfold register_instance in Hstep. unfold_monad. cbn [self world trace] in Hstep.
      injection Hstep as <- <-. cbn [self world trace with_instances _named_pipe_instances].
      exists (l ++ [h]), (t ++ [Log DEBUG "Waiting for connection from the client...";
                                Print "Waiting for connection from the client..."]).
      rewrite Hl, Ht, <- !app_assoc. repeat split.
      * intros h' [= <-]. apply in_or_app. right. left. reflexivity.
      * intros h' Hin. apply in_or_app. left. apply Hth.
        apply in_app_or in Hin as [Hin|[?|[?|[]]]]; [exact Hin|discriminate..].
    + destruct (accept_client h m) as [r m1] eqn:Ha.
      apply accept_client_inv in Ha as (Hs & t1 & Ht1 & Honly).
      exists l, (t ++ t1).
      assert (Hm : m' = m1) by (destruct r as [[]|]; injection Hstep; auto).
      assert (Hp' : forall h', p' <> AtConnect h')
        by (destruct r as [[]|]; injection Hstep as <- _; discriminate).
      subst m'. rewrite Hs, Ht1, Ht, Hl, <- app_assoc. repeat split.
      * intros h' E. destruct (Hp' _ E).
      * intros h' Hin. apply in_app_or in Hin as [Hin|Hin]; [auto|].
        apply Honly in Hin. subst h'. apply Hp. reflexivity.
    + injection Hstep as <- <-. exists l, t. repeat split; auto.
    + injection Hstep as <- <-. exists l, t. repeat split; auto.
  - exists l, t. cbn [self trace]. repeat split; auto.
Qed.

Lemma attempts_In (h : HANDLE) (t : list event) :
  In h (attempts t) -> In (Call_DisconnectNamedPipe h) t.
Proof.
  unfold attempts. rewrite <- !list_elem_of_In, list_elem_of_omap.
  intros (ev & Hin & Hev). destruct ev; try discriminate.
  injection Hev as ->. exact Hin.
Qed.

(** [serve_forever] is its two opening messages followed by the loop. *)
Lemma serve_forever_unfold (fuel : nat) (m : machine World) :
  serve_forever fuel m =
    serve_loop fuel
      (Machine (self m) (world m)
         (trace m ++ [Log INFO ("Creating Named Pipe with name: " +:+ _pipe_name (self m));
                      Print ("Creating Named Pipe with name: " +:+ _pipe_name (self m))])).
Proof.
  unfold serve_forever. unfold_monad. cbn [self world trace].
  rewrite <- app_assoc. reflexivity.
Qed.

(** C4: when the creation of a channel instance yields the invalid handle,
    the loop logs the failure and raises [RuntimeError] in that same
    iteration, whatever the number of iterations it could still run: nothing
    is appended to the pending list and no handler thread is started. *)
Theorem create_failure_is_fatal (fuel : nat) (m m1 : machine World) :
  _shutdown_event (self m) = false ->
  _create_pipe (_pipe_name (self m)) m = (Return None, m1) ->
  let error_msg :=
    "Failed to create named pipe instance: "
    +:+ FormatMessage (GetLastError (world m1)) in
  serve_loop (S fuel) m =
    (Raise (RuntimeError error_msg),
     Machine (self m) (world m1)
       (trace m ++ [Call_CreateNamedPipe (_pipe_name (self m)); Log ERROR error_msg])).
Proof.
  intros Hev Hc error_msg. cbn [serve_loop].
  unfold bind at 1. unfold get_self at 1. rewrite Hev.
  unfold serve_iteration, open_instance.
  unfold bind at 1. unfold bind at 1. unfold bind at 1. unfold get_self at 1.
  unfold bind at 1. rewrite Hc.
  apply _create_pipe_inv in Hc as [Hs Ht].
  unfold_monad. cbn [self world trace]. rewrite Hs, Ht, <- app_assoc. reflexivity.
Qed.

(** C3: when the wait for a client fails with [ERROR_PIPE_NOT_CONNECTED],
    the loop ends and [serve_forever] returns: nothing is raised, the only
    messages are the informational notice and its print, no error is logged
    and no handler thread is started. *)
Theorem teardown_during_wait_ends_loop (fuel : nat) (m m1 : machine World)
    (h : HANDLE) (f s : string) (w2 : World) :
  _shutdown_event (self m) = false ->
  _create_pipe (_pipe_name (self m)) m = (Return (Some h), m1) ->
  ConnectNamedPipe h (world m1)
    = (Raise (PyWinError winerror.ERROR_PIPE_NOT_CONNECTED f s), w2) ->
  let bye := "NamedPipe Server is shutdown. Exit the main thread in the backend server." in
  let wait := "Waiting for connection from the client..." in
  serve_loop (S fuel) m =
    (Return (Some tt),
     Machine (with_instances (_named_pipe_instances (self m) ++ [h]) (self m)) w2
       (trace m ++ [Call_CreateNamedPipe (_pipe_name (self m));
                    Log DEBUG wait; Print wait;
                    Call_ConnectNamedPipe h;
                    Log INFO bye; Print bye])).
Proof.
  intros Hev Hc Hconn bye wait. cbn [serve_loop].
  unfold bind at 1. unfold get_self at 1. rewrite Hev.
  unfold serve_iteration, open_instance.
  unfold bind at 1. unfold bind at 1. unfold bind at 1. unfold get_self at 1.
  unfold bind at 1. rewrite Hc.
  apply _create_pipe_inv in Hc as [Hs Ht].
  unfold register_instance, accept_client, connect_handler.
  unfold_monad. cbn [self world trace]. rewrite Hconn.
  cbn [self world trace]. rewrite Z.eqb_refl. cbn [self world trace].
  rewrite Hs, Ht, <- !app_assoc. reflexivity.
Qed.

(** C10: while the listener is blocked in the wait for a client on an
    instance, that instance is in the pending list, as is every instance
    handed to a handler thread since the listener started; a [shutdown]
    that runs at that moment therefore disconnects the instance being
    waited on. *)
Theorem listening_instance_is_pending (m0 m : machine World) (h : HANDLE) :
  reachable m0 (AtConnect h) m ->
  In h (_named_pipe_instances (self m))
  /\ (forall t h', trace m = trace m0 ++ t -> In (ThreadStart h') t ->
                   In h' (_named_pipe_instances (self m)))
  /\ In (Call_DisconnectNamedPipe h) (trace (snd (shutdown m))).
Proof.
  intros Hr.
  destruct (reachable_invariant _ _ _ Hr) as (l & t & Hl & Ht & Hp & Hth).
  assert (Hin : In h (_named_pipe_instances (self m))).
  { rewrite Hl. apply in_or_app. right. apply Hp. reflexivity. }
  split; [exact Hin|]. split.
  - intros t' h' Ht' Hin'. rewrite Ht in Ht'. apply app_inv_head in Ht'. subst t'.
    rewrite Hl. apply in_or_app. right. apply Hth. exact Hin'.
  - destruct (shutdown_spec m) as (errs & m' & t' & Hs & _ & Ht' & Ha).
    rewrite Hs. cbn [snd]. rewrite Ht'. apply in_or_app. right. right. right.
    apply attempts_In. rewrite Ha. apply in_rev. rewrite rev_involutive. exact Hin.
Qed.
End ServeFacts.

Section InitTheorems.
Context {os : OSName} {config : server_config}.

(** C9: off Windows, construction raises an [OSError] whose message names
    the server type and the operating system, and the object holds nothing
    but the type name: no pending list, no shutdown event.  On Windows,
    construction succeeds and the pending list is empty. *)
Theorem init_requires_windows (cls_name pipe_name : string) (shutdown_event : bool) :
  (is_windows = false ->
   __init__ cls_name pipe_name shutdown_event ∅ =
     (Raise (OSError (cls_name +:+ " can be only used on Windows Operating Systems. "
                      +:+ "Current Operating System is " +:+ _get_os_name)),
      {["_server_type_name" := VStr cls_name]})
   /\ snd (__init__ cls_name pipe_name shutdown_event ∅) !! "_named_pipe_instances" = None
   /\ snd (__init__ cls_name pipe_name shutdown_event ∅) !! "_shutdown_event" = None)
  /\
  (is_windows = true ->
   fst (__init__ cls_name pipe_name shutdown_event ∅) = Return tt
   /\ as_server (snd (__init__ cls_name pipe_name shutdown_event ∅)) =
        Some {| _server_type_name := cls_name;
                _named_pipe_instances := [];
                _pipe_name := pipe_name;
                _shutdown_event := shutdown_event;
                _time_out := DEFAULT_NAMED_PIPE_TIMEOUT_MILLISECONDS |}).
Proof.
  unfold __init__. split; intros ->; cbn [negb fst snd].
  - split; [reflexivity|].
    split; (rewrite lookup_insert_ne by discriminate); apply lookup_empty.
  - split; [reflexivity|]. unfold as_server.
    repeat (rewrite lookup_insert_eq || (rewrite lookup_insert_ne by discriminate)).
    reflexivity.
Qed.
End InitTheorems.

Section EntryPointTheorems.
Import EntryPoint.

(** C7: in the foreground path, when the adaptor's start raises, the
    failure is logged and the cleanup is called once, run and stop not at
    all; if the cleanup returns the start failure propagates, and if the
    cleanup raises, that second failure is logged too and is the one that
    propagates. *)
Theorem foreground_start_failure_cleans_up {A : Type} {adaptor_cls : Adaptor A}
    (run_data : gmap string string) (a a1 : A) (e : exn) (hist : list entry_event) :
  _start a = (Raise e, a1) ->
  let running := Logged ERROR ("Error running the adaptor: " +:+ str e) in
  run_foreground run_data (Process a hist) =
    match _cleanup a1 with
    | (Return _, a2) =>
        (Raise e, Process a2 (hist ++ [Called Start; running; Called Cleanup]))
    | (Raise e', a2) =>
        (Raise e',
         Process a2
           (hist ++ [Called Start; running; Called Cleanup;
                     Logged ERROR ("Error cleaning up the adaptor: " +:+ str e')]))
    end.
Proof.
  intros Hs running. unfold run_foreground, call, logged.
  unfold bind, try_except, raise, ret. cbn [adaptor history]. rewrite Hs.
  cbn [adaptor history].
  destruct (_cleanup a1) as [[[]|e'] a2]; cbn [adaptor history];
    rewrite <- !app_assoc; reflexivity.
Qed.

(** C8: whatever the frontend subcommand, exactly one Frontend Runner is
    constructed, before anything is relayed; it is given the absolute form
    of a relative connection-file path, and an absolute path as it is. *)
Theorem connection_file_made_absolute {path : os_path}
    (subcommand connection_file : string) (run_data : gmap string string)
    (adaptor_module : option string) (module_name : string) :
  exists resolved rest,
    snd (daemon_frontend subcommand connection_file run_data adaptor_module module_name)
      = FrontendRunner_new resolved :: rest
    /\ (forall p, ~ In (FrontendRunner_new p) rest)
    /\ (isabs connection_file = false -> resolved = abspath connection_file)
    /\ (isabs connection_file = true -> resolved = connection_file).
Proof.
  exists (if isabs connection_file then connection_file else abspath connection_file).
  unfold daemon_frontend.
  destruct (String.eqb subcommand "start");
    [destruct adaptor_module|
     destruct (String.eqb subcommand "run");
       [|destruct (String.eqb subcommand "stop")]];
    cbn [snd app]; eexists; (split; [reflexivity|]);
    (split; [intros p Hin; repeat (destruct Hin as [Hin|Hin]; [discriminate|]);
             destruct Hin|]);
    split; intros ->; reflexivity.
Qed.

(** Joined to an absolute working directory, a path is absolute. *)
Lemma posix_join_isabs (cwd p : string) :
  posix_isabs cwd = true -> posix_isabs (posix_join cwd p) = true.
Proof.
  intros Hc. unfold posix_join. destruct (posix_isabs p) eqn:Hp; [exact Hp|].
  destruct cwd as [|c cwd]; [discriminate|].
  destruct (ends_with_slash (String c cwd)); exact Hc.
Qed.

(** The normal form of an absolute path is absolute. *)
Lemma posix_normpath_isabs (p : string) :
  posix_isabs p = true -> posix_isabs (posix_normpath p) = true.
Proof.
  destruct p as [|c p]; [discriminate|]. cbn [posix_isabs]. intros Hc.
  apply Ascii.eqb_eq in Hc. subst c. unfold posix_normpath.
  assert (Hs : initial_slashes (String "/" p) = 1%nat
               \/ initial_slashes (String "/" p) = 2%nat).
  { destruct p as [|c1 p]; [left; reflexivity|].
    destruct (Ascii.eqb c1 "/"%char) eqn:E1.
    - apply Ascii.eqb_eq in E1. subst c1.
      destruct p as [|c2 p]; [right; reflexivity|].
      destruct (Ascii.eqb c2 "/"%char) eqn:E2.
      + apply Ascii.eqb_eq in E2. subst c2. left. reflexivity.
      + right. destruct c2 as [[] [] [] [] [] [] [] []]; try reflexivity; discriminate E2.
    - left. destruct c1 as [[] [] [] [] [] [] [] []]; try reflexivity; discriminate E1. }
  destruct Hs as [-> | ->]; reflexivity.
Qed.

(** Against an absolute working directory, the POSIX resolution always
    yields an absolute path. *)
Lemma posix_abspath_isabs (cwd p : string) :
  posix_isabs cwd = true -> posix_isabs (posix_abspath cwd p) = true.
Proof.
  intros Hc. unfold posix_abspath. apply posix_normpath_isabs.
  destruct (posix_isabs p) eqn:Hp; [exact Hp|]. apply posix_join_isabs. exact Hc.
Qed.
End EntryPointTheorems.

(** ** Further properties of [shutdown] *)

Lemma closes_app (t1 t2 : list event) : closes (t1 ++ t2) = closes t1 ++ closes t2.
Proof. unfold closes. apply omap_app. Qed.

Lemma waits_app (t1 t2 : list event) : waits (t1 ++ t2) = waits t1 ++ waits t2.
Proof. unfold waits. apply omap_app. Qed.

Lemma handled_app (t1 t2 : list event) : handled (t1 ++ t2) = handled t1 ++ handled t2.
Proof. unfold handled. apply omap_app. Qed.

Lemma error_logs_app (t1 t2 : list event) :
  length (List.filter is_error_log (t1 ++ t2))
  = (length (List.filter is_error_log t1) + length (List.filter is_error_log t2))%nat.
Proof. rewrite List.filter_app, length_app. reflexivity. Qed.

Section ShutdownReport.
Context {World : Type} {win32 : Win32 World} {config : server_config}.

(** One pass through the [try] statement, in full: what it adds to the
    error list, where it leaves the world, and what it closes and logs. *)
Lemma release_pass_report (h : HANDLE) (errs : list exn) (m : machine World) :
  exists m' t,
    try_except (release h;; ret errs) (release_handler errs) m
      = (Return (errs ++ failure_of (fst (release_answer h (world m)))), m')
    /\ self m' = self m
    /\ world m' = snd (release_answer h (world m))
    /\ trace m' = trace m ++ t
    /\ sublist (closes t) [h]
    /\ length (List.filter is_error_log t)
       = length (failure_of (fst (release_answer h (world m)))).
Proof.
  unfold release, release_handler, release_answer. unfold_monad. simpl.
  destruct (DisconnectNamedPipe h (world m)) as [[[]|e] w1] eqn:Hd; simpl.
  - destruct (CloseHandle h w1) as [[[]|e] w2] eqn:Hc; simpl.
    + eexists _, [_; _]. rewrite <- !app_assoc, app_nil_r.
      repeat split. simpl. reflexivity.
    + destruct e; simpl; try (destruct (_ =? _)%Z);
        try (eexists _, [_; _]; rewrite <- !app_assoc, ?app_nil_r;
             repeat split; simpl; reflexivity);
        (eexists _, [_; _; _]; rewrite <- !app_assoc; repeat split; simpl; reflexivity).
  - destruct e; simpl; try (destruct (_ =? _)%Z);
      try (eexists _, [_]; rewrite ?app_nil_r; repeat split; simpl;
           apply sublist_nil_l);
      (eexists _, [_; _]; rewrite <- !app_assoc; repeat split; simpl;
       apply sublist_nil_l).
Qed.

Lemma drain_report (n : nat) :
  forall (errs : list exn) (m : machine World),
    n = length (_named_pipe_instances (self m)) ->
    exists m' t,
      drain n errs m
        = (Return (errs ++ reported_failures (rev (_named_pipe_instances (self m)))
                                             (world m)), m')
      /\ trace m' = trace m ++ t
      /\ sublist (closes t) (rev (_named_pipe_instances (self m)))
      /\ length (List.filter is_error_log t)
         = length (reported_failures (rev (_named_pipe_instances (self m))) (world m)).
Proof.
  induction n as [|n IH]; intros errs m Hn.
  - symmetry in Hn. apply length_zero_iff_nil in Hn.
    exists m, []. rewrite Hn. simpl. unfold_monad. rewrite !app_nil_r.
    repeat split. constructor.
  - destruct (_named_pipe_instances (self m)) as [|x l] eqn:Hl using rev_ind;
      [discriminate|]. clear IHl.
    rewrite length_app in Hn. simpl in Hn.
    simpl. unfold bind at 1. unfold get_self at 1. rewrite Hl, pop_snoc.
    unfold bind at 1. unfold modify_self at 1.
    set (m1 := Machine (with_instances l (self m)) (world m) (trace m)).
    unfold bind at 1.
    destruct (release_pass_report x errs m1)
      as (m2 & t1 & Hr & Hs & Hw & Ht & Hc & He).
    rewrite Hr.
    destruct (IH (errs ++ failure_of (fst (release_answer x (world m1)))) m2)
      as (m3 & t2 & Hd & Ht3 & Hc3 & He3).
    { rewrite Hs. simpl. lia. }
    rewrite Hs in Hd, Hc3, He3. rewrite Hw in Hd, He3.
    subst m1. cbn [self world trace with_instances _named_pipe_instances] in *.
    exists m3, (t1 ++ t2). rewrite rev_app_distr. cbn [rev app reported_failures].
    repeat split.
    + rewrite Hd, <- app_assoc. reflexivity.
    + rewrite Ht3, Ht. simpl. rewrite <- app_assoc. reflexivity.
    + rewrite closes_app. apply (sublist_app _ [x] _ (rev l)); assumption.
    + rewrite error_logs_app, length_app, He, He3. reflexivity.
Qed.

Lemma shutdown_report (m : machine World) :
  exists m' t,
    shutdown m =
      (match reported_failures (rev (_named_pipe_instances (self m))) (world m) with
       | [] => Return tt
       | e :: errs => Raise (MultipleErrors (e :: errs))
       end, m')
    /\ trace m' = trace m ++ t
    /\ sublist (closes t) (rev (_named_pipe_instances (self m)))
    /\ length (List.filter is_error_log t)
       = length (reported_failures (rev (_named_pipe_instances (self m))) (world m)).
Proof.
  unfold shutdown.
  unfold bind at 1. unfold modify_self at 1.
  unfold bind at 1. unfold emit at 1. cbn [self world trace].
  unfold bind at 1. unfold emit at 1. cbn [self world trace].
  unfold bind at 1. unfold get_self at 1. cbn [self world trace].
  set (m1 := Machine (with_shutdown_event true (self m)) (world m)
                     ((trace m ++ [EventSet]) ++ [Sleep 1])).
  destruct (drain_report (length (_named_pipe_instances (self m1))) [] m1 eq_refl)
    as (m2 & t & Hd & Ht & Hc & He).
  cbn [m1 self world trace with_shutdown_event _named_pipe_instances app] in Hd, Ht, Hc, He.
  exists m2, (EventSet :: Sleep 1 :: t). unfold bind.
  cbn [with_shutdown_event _named_pipe_instances].
  rewrite Hd. repeat split.
  - destruct (reported_failures _ _); reflexivity.
  - rewrite Ht, <- !app_assoc. reflexivity.
  - exact Hc.
  - exact He.
Qed.

(** X1: [shutdown] raises exactly when some release failed with an exception
    that is not a [pywintypes.error], and the aggregate then holds those
    failures, all of them, in the order the instances were released (last
    pending first). *)
Theorem shutdown_reports_other_failures_in_order (m : machine World) :
  fst (shutdown m) =
    match reported_failures (rev (_named_pipe_instances (self m))) (world m) with
    | [] => Return tt
    | e :: errs => Raise (MultipleErrors (e :: errs))
    end.
Proof.
  destruct (shutdown_report m) as (m' & t & Hs & _). rewrite Hs. reflexivity.
Qed.

(** X2: [shutdown] writes one ERROR record per failure in the aggregate it
    raises, and none when it returns. *)
Theorem shutdown_logs_one_error_per_reported_failure (m : machine World) :
  exists t,
    trace (snd (shutdown m)) = trace m ++ t
    /\ length (List.filter is_error_log t)
       = match fst (shutdown m) with
         | Raise (MultipleErrors errs) => length errs
         | _ => O
         end.
Proof.
  destruct (shutdown_report m) as (m' & t & Hs & Ht & _ & He).
  exists t. rewrite Hs. cbn [fst snd]. split; [exact Ht|].
  rewrite He. destruct (reported_failures _ _); reflexivity.
Qed.

(** X3: [shutdown] closes only handles that were pending, in the order of
    release and no more often than they are pending: the handles passed to
    [CloseHandle] are a subsequence of the pending list read backwards.  In
    particular no handle is closed twice when no handle is pending twice. *)
Theorem shutdown_closes_only_pending_handles (m : machine World) :
  exists t,
    trace (snd (shutdown m)) = trace m ++ t
    /\ sublist (closes t) (rev (_named_pipe_instances (self m)))
    /\ (NoDup (_named_pipe_instances (self m)) -> NoDup (closes t)).
Proof.
  destruct (shutdown_report m) as (m' & t & Hs & Ht & Hc & _).
  exists t. rewrite Hs. cbn [snd]. split; [exact Ht|]. split; [exact Hc|].
  intros Hnd. apply (sublist_NoDup _ (rev (_named_pipe_instances (self m)))); [|exact Hc].
  apply NoDup_ListNoDup, (Permutation_NoDup (Permutation_rev _)), NoDup_ListNoDup, Hnd.
Qed.

(** X4: once [shutdown] has run, [serve_forever] returns at its first loop
    test: it writes its two opening messages, creates no instance and
    leaves the server object as it is. *)
Theorem serve_forever_after_shutdown_returns_at_once (fuel : nat) (m : machine World) :
  serve_forever (S fuel) (snd (shutdown m)) =
    (Return (Some tt),
     Machine (self (snd (shutdown m))) (world (snd (shutdown m)))
       (trace (snd (shutdown m))
        ++ [Log INFO ("Creating Named Pipe with name: " +:+ _pipe_name (self m));
            Print ("Creating Named Pipe with name: " +:+ _pipe_name (self m))])).
Proof.
  destruct (shutdown_spec m) as (errs & m1 & t & Hs & Hself & _).
  rewrite Hs. cbn [snd]. unfold serve_forever.
  unfold_monad. cbn [self world trace serve_loop]. unfold_monad. cbn [self world trace].
  rewrite Hself. cbn [with_instances with_shutdown_event _shutdown_event _pipe_name].
  rewrite <- app_assoc. reflexivity.
Qed.
End ShutdownReport.

(** ** Further properties of [serve_forever] *)

Lemma with_instances_same (s : NamedPipeServer) :
  with_instances (_named_pipe_instances s) s = s.
Proof. destruct s. reflexivity. Qed.

Section ServeLoop.
Context {World : Type} {win32 : Win32 World} {config : server_config}.

(** A handle that [_create_pipe] returns is never the invalid handle. *)
Lemma _create_pipe_Some (name : string) (m m1 : machine World) (h : HANDLE) :
  _create_pipe name m = (Return (Some h), m1) -> h <> win32file.INVALID_HANDLE_VALUE.
Proof.
  unfold _create_pipe. unfold_monad. cbn [self world trace].
  destruct (CreateNamedPipe _ _ _ _ _ _ _ (world m)) as [[h'|e] w1]; [|discriminate].
  destruct (h' =? win32file.INVALID_HANDLE_VALUE)%Z eqn:E; [discriminate|].
  intros [= <- _]. apply Z.eqb_neq. exact E.
Qed.

(** X5: a client connects: the iteration starts one handler thread, on the
    instance just created and appended, and the loop goes on from its test
    with what is left of the fuel. *)
Theorem connected_client_gets_handler (fuel : nat) (m m1 : machine World)
    (h : HANDLE) (w2 : World) :
  _shutdown_event (self m) = false ->
  _create_pipe (_pipe_name (self m)) m = (Return (Some h), m1) ->
  ConnectNamedPipe h (world m1) = (Return tt, w2) ->
  let wait := "Waiting for connection from the client..." in
  serve_loop (S fuel) m =
    serve_loop fuel
      (Machine (with_instances (_named_pipe_instances (self m) ++ [h]) (self m)) w2
         (trace m ++ [Call_CreateNamedPipe (_pipe_name (self m));
                      Log DEBUG wait; Print wait;
                      Call_ConnectNamedPipe h;
                      Print "Handling response"; ThreadStart h])).
Proof.
  intros Hev Hc Hconn wait. cbn [serve_loop].
  unfold bind at 1. unfold get_self at 1. rewrite Hev.
  unfold serve_iteration, open_instance.
  unfold bind at 1. unfold bind at 1. unfold bind at 1. unfold bind at 1.
  unfold get_self at 1. unfold bind at 1. rewrite Hc.
  apply _create_pipe_inv in Hc as [Hs Ht].
  unfold register_instance, accept_client, connect_handler.
  unfold_monad. cbn [self world trace]. rewrite Hconn.
  cbn [self world trace]. rewrite Hs, Ht, <- !app_assoc. reflexivity.
Qed.

(** X6: an exception raised by the wait that is not a [pywintypes.error]
    is not caught: it leaves [serve_forever] as it is, nothing is logged
    for it, no handler thread is started, and the instance stays in the
    pending list. *)
Theorem other_connect_exception_escapes (fuel : nat) (m m1 : machine World)
    (h : HANDLE) (e : exn) (w2 : World) :
  _shutdown_event (self m) = false ->
  _create_pipe (_pipe_name (self m)) m = (Return (Some h), m1) ->
  ConnectNamedPipe h (world m1) = (Raise e, w2) ->
  is_pywintypes_error e = false ->
  let wait := "Waiting for connection from the client..." in
  serve_loop (S fuel) m =
    (Raise e,
     Machine (with_instances (_named_pipe_instances (self m) ++ [h]) (self m)) w2
       (trace m ++ [Call_CreateNamedPipe (_pipe_name (self m));
                    Log DEBUG wait; Print wait;
                    Call_ConnectNamedPipe h])).
Proof.
  intros Hev Hc Hconn He wait. cbn [serve_loop].
  unfold bind at 1. unfold get_self at 1. rewrite Hev.
  unfold serve_iteration, open_instance.
  unfold bind at 1. unfold bind at 1. unfold bind at 1. unfold get_self at 1.
  unfold bind at 1. rewrite Hc.
  apply _create_pipe_inv in Hc as [Hs Ht].
  unfold register_instance, accept_client, connect_handler.
  unfold_monad. cbn [self world trace]. rewrite Hconn.
  destruct e; try discriminate He; cbn [self world trace];
    rewrite Hs, Ht, <- !app_assoc; reflexivity.
Qed.

(** X7: when [CreateNamedPipe] raises instead of returning the invalid
    handle, the exception leaves [_create_pipe] and [serve_forever]
    unchanged, without the "Failed to create" record; the pending list is
    untouched. *)
Theorem create_exception_escapes (fuel : nat) (m m1 : machine World) (e : exn) :
  _shutdown_event (self m) = false ->
  _create_pipe (_pipe_name (self m)) m = (Raise e, m1) ->
  serve_loop (S fuel) m =
    (Raise e,
     Machine (self m) (world m1)
       (trace m ++ [Call_CreateNamedPipe (_pipe_name (self m))])).
Proof.
  intros Hev Hc. cbn [serve_loop].
  unfold bind at 1. unfold get_self at 1. rewrite Hev.
  unfold serve_iteration, open_instance.
  unfold bind at 1. unfold bind at 1. unfold bind at 1. unfold get_self at 1.
  unfold bind at 1. rewrite Hc.
  apply _create_pipe_inv in Hc as [Hs Ht].
  destruct m1 as [s1 w1 t1]. cbn [self world trace] in *. subst s1 t1. reflexivity.
Qed.

(** What one iteration of the loop body does to the server object and the
    trace, however it ends. *)
Lemma serve_iteration_effect (m m1 : machine World) (r : outcome flow) :
  serve_iteration m = (r, m1) ->
  exists t,
    trace m1 = trace m ++ t
    /\ self m1 = with_instances (_named_pipe_instances (self m) ++ waits t) (self m)
    /\ sublist (handled t) (waits t)
    /\ Forall (fun h => h <> win32file.INVALID_HANDLE_VALUE) (waits t).
Proof.
  unfold serve_iteration, open_instance.
  unfold bind at 1. unfold bind at 1. unfold bind at 1. unfold get_self at 1.
  destruct (_create_pipe (_pipe_name (self m)) m) as [[[h|]|e] m'] eqn:Hc.
  - pose proof (_create_pipe_Some _ _ _ _ Hc) as Hvalid.
    apply _create_pipe_inv in Hc as [Hs Ht].
    unfold register_instance, accept_client, connect_handler.
    unfold_monad. cbn [self world trace].
    destruct (ConnectNamedPipe h (world m')) as [[[]|e] w2]; cbn [self world trace].
    + intros [= <- <-]. cbn [self world trace]. rewrite Hs, Ht, <- !app_assoc.
      eexists. split; [reflexivity|]. cbn. repeat split.
      * reflexivity.
      * repeat constructor. exact Hvalid.
    + destruct e as [code ? ?| | | | |];
        try (intros [= <- <-]; cbn [self world trace]; rewrite Hs, Ht, <- !app_assoc;
             eexists; split; [reflexivity|]; cbn; repeat split;
             [apply sublist_nil_l | repeat constructor; exact Hvalid]).
      destruct (code =? winerror.ERROR_PIPE_NOT_CONNECTED)%Z; cbn [self world trace];
        intros [= <- <-]; cbn [self world trace]; rewrite Hs, Ht, <- !app_assoc;
        (eexists; split; [reflexivity|]); cbn; repeat split;
        try apply sublist_nil_l; try reflexivity; repeat constructor; exact Hvalid.
  - apply _create_pipe_inv in Hc as [Hs Ht]. unfold_monad. cbn [self world trace].
    intros [= <- <-]. cbn [self world trace]. rewrite Hs, Ht, <- !app_assoc.
    eexists. split; [reflexivity|]. cbn. rewrite app_nil_r, with_instances_same.
    repeat split; constructor.
  - apply _create_pipe_inv in Hc as [Hs Ht]. unfold_monad.
    intros [= <- <-]. rewrite Hs, Ht.
    eexists. split; [reflexivity|]. cbn. rewrite app_nil_r, with_instances_same.
    repeat split; constructor.
Qed.

(** The same for the whole loop, for any number of iterations and any way
    out of it. *)
Lemma serve_loop_effect (fuel : nat) :
  forall (m m1 : machine World) (r : outcome (option unit)),
    serve_loop fuel m = (r, m1) ->
    exists t,
      trace m1 = trace m ++ t
      /\ self m1 = with_instances (_named_pipe_instances (self m) ++ waits t) (self m)
      /\ sublist (handled t) (waits t)
      /\ Forall (fun h => h <> win32file.INVALID_HANDLE_VALUE) (waits t).
Proof.
  assert (Hstay : forall m : machine World,
            exists t, trace m = trace m ++ t
              /\ self m = with_instances (_named_pipe_instances (self m) ++ waits t) (self m)
              /\ sublist (handled t) (waits t)
              /\ Forall (fun h => h <> win32file.INVALID_HANDLE_VALUE) (waits t)).
  { intros m. exists []. cbn. rewrite !app_nil_r, with_instances_same.
    repeat split; constructor. }
  induction fuel as [|fuel IH]; intros m m1 r; cbn [serve_loop].
  - unfold ret. intros [= <- <-]. apply Hstay.
  - unfold bind at 1. unfold get_self at 1.
    destruct (_shutdown_event (self m)).
    { unfold ret. intros [= <- <-]. apply Hstay. }
    unfold bind at 1.
    destruct (serve_iteration m) as [[[]|e] m2] eqn:Hit;
      apply serve_iteration_effect in Hit as (t1 & Ht1 & Hs1 & Hsub1 & Hv1).
    + intros Hloop. apply IH in Hloop as (t2 & Ht2 & Hs2 & Hsub2 & Hv2).
      exists (t1 ++ t2). rewrite Ht2, Ht1, <- app_assoc. split; [reflexivity|].
      rewrite waits_app, handled_app. split; [|split].
      * rewrite Hs2, Hs1. cbn [with_instances _named_pipe_instances _server_type_name
                                 _pipe_name _shutdown_event _time_out].
        rewrite <- app_assoc. reflexivity.
      * apply sublist_app; assumption.
      * apply Forall_app. split; assumption.
    + unfold ret. intros [= <- <-]. exists t1. repeat split; assumption.
    + intros [= <- <-]. exists t1. repeat split; assumption.
Qed.

(** X8: however and whenever the loop ends, the pending list is the list
    it started with followed by the instances on which a wait was begun, in
    that order: the listener removes nothing from the list, appends every
    instance it waits on exactly once, and leaves the rest of the server
    object (names, timeout, shutdown event) alone. *)
Theorem serve_loop_appends_what_it_waits_on (fuel : nat) (m : machine World) :
  exists t,
    trace (snd (serve_loop fuel m)) = trace m ++ t
    /\ self (snd (serve_loop fuel m))
       = with_instances (_named_pipe_instances (self m) ++ waits t) (self m).
Proof.
  destruct (serve_loop fuel m) as [r m1] eqn:Hl.
  apply serve_loop_effect in Hl as (t & Ht & Hs & _). exists t. split; assumption.
Qed.

(** X9: handler threads are started only on instances on which a wait was
    begun, at most one per wait and in the same order: the handles given to
    handlers are a subsequence of the handles waited on. *)
Theorem handlers_only_on_waited_instances (fuel : nat) (m : machine World) :
  exists t,
    trace (snd (serve_loop fuel m)) = trace m ++ t
    /\ sublist (handled t) (waits t).
Proof.
  destruct (serve_loop fuel m) as [r m1] eqn:Hl.
  apply serve_loop_effect in Hl as (t & Ht & _ & Hsub & _). exists t. split; assumption.
Qed.


(** X11: a [shutdown] that follows the loop attempts the release of every
    instance the listener waited on and of every instance that was already
    pending, each once, the most recent first. *)
Theorem shutdown_releases_everything_served (fuel : nat) (m : machine World) :
  exists t1 t2,
    trace (snd (serve_loop fuel m)) = trace m ++ t1
    /\ trace (snd (shutdown (snd (serve_loop fuel m))))
       = trace (snd (serve_loop fuel m)) ++ t2
    /\ attempts t2 = rev (waits t1) ++ rev (_named_pipe_instances (self m)).
Proof.
  destruct (serve_loop fuel m) as [r m1] eqn:Hl.
  apply serve_loop_effect in Hl as (t1 & Ht1 & Hs & _).
  destruct (shutdown_spec m1) as (errs & m2 & t2 & Hsh & _ & Ht2 & Ha).
  exists t1, (EventSet :: Sleep 1 :: t2). cbn [snd]. rewrite Hsh. cbn [snd].
  split; [exact Ht1|]. split; [exact Ht2|].
  change (attempts (EventSet :: Sleep 1 :: t2)) with (attempts t2).
  rewrite Ha, Hs. cbn [with_instances _named_pipe_instances].
  apply rev_app_distr.
Qed.
End ServeLoop.

(** ** Further properties of [__init__] and of [MultipleErrors] *)

Section InitFrame.
Context {os : OSName} {config : server_config}.

(** X12: [__init__] assigns five attributes and touches no other; off
    Windows it assigns only the type name before it raises, so every other
    attribute the object already had is still there. *)
Theorem init_leaves_other_attributes (cls_name pipe_name : string)
    (shutdown_event : bool) (self : gmap string value) (k : string) :
  k <> "_server_type_name" ->
  (is_windows = false
   \/ (k <> "_named_pipe_instances" /\ k <> "_pipe_name"
       /\ k <> "_shutdown_event" /\ k <> "_time_out")) ->
  snd (__init__ cls_name pipe_name shutdown_event self) !! k = self !! k.
Proof.
  intros Hk Hrest. unfold __init__.
  destruct is_windows; cbn [negb snd].
  - destruct Hrest as [?|(H1 & H2 & H3 & H4)]; [discriminate|].
    rewrite !lookup_insert_ne by congruence. reflexivity.
  - rewrite lookup_insert_ne by congruence. reflexivity.
Qed.

(** X13: on Windows, [__init__] establishes the whole server state whatever
    the object held before: run on a server that has pending instances, it
    leaves it with an empty pending list. *)
Theorem init_resets_server_state (cls_name pipe_name : string)
    (shutdown_event : bool) (self : gmap string value) :
  is_windows = true ->
  __init__ cls_name pipe_name shutdown_event self
    = (Return tt, snd (__init__ cls_name pipe_name shutdown_event self))
  /\ as_server (snd (__init__ cls_name pipe_name shutdown_event self)) =
       Some {| _server_type_name := cls_name;
               _named_pipe_instances := [];
               _pipe_name := pipe_name;
               _shutdown_event := shutdown_event;
               _time_out := DEFAULT_NAMED_PIPE_TIMEOUT_MILLISECONDS |}.
Proof.
  intros Hw. unfold __init__. rewrite Hw. cbn [negb snd]. split; [reflexivity|].
  unfold as_server.
  repeat (rewrite lookup_insert_eq || (rewrite lookup_insert_ne by discriminate)).
  reflexivity.
Qed.
End InitFrame.

Lemma append_assoc (a b c : string) : (a +:+ b) +:+ c = a +:+ b +:+ c.
Proof.
  induction a as [|x a IH]; [reflexivity|].
  change (String x ((a +:+ b) +:+ c) = String x (a +:+ b +:+ c)).
  rewrite IH. reflexivity.
Qed.

Lemma append_empty_r (a : string) : a +:+ EmptyString = a.
Proof.
  induction a as [|x a IH]; [reflexivity|].
  change (String x (a +:+ EmptyString) = String x a).
  rewrite IH. reflexivity.
Qed.

Lemma join_contains (sep p : string) (parts : list string) :
  In p parts -> exists pre post, join sep parts = pre +:+ p +:+ post.
Proof.
  induction parts as [|q ps IH]; [intros []|].
  intros [->|Hin].
  - exists EmptyString. destruct ps as [|q' ps].
    + exists EmptyString. symmetry. apply (append_empty_r p).
    + exists (sep +:+ join sep (q' :: ps)). reflexivity.
  - destruct ps as [|q' ps]; [destruct Hin|].
    destruct (IH Hin) as (pre & post & Heq).
    exists (q +:+ sep +:+ pre), post.
    change (join sep (q :: q' :: ps)) with (q +:+ sep +:+ join sep (q' :: ps)).
    rewrite Heq, !append_assoc. reflexivity.
Qed.

(** X14: the message of a [MultipleErrors] contains the message of each of
    the errors it aggregates. *)
Theorem aggregate_message_contains_each_error (errors : list exn) (e : exn) :
  In e errors ->
  exists pre post, str (MultipleErrors errors) = pre +:+ str e +:+ post.
Proof.
  intros Hin.
  destruct (join_contains "; " (str e) (List.map str errors)) as (pre & post & Heq).
  { apply in_map. exact Hin. }
  exists ("Multiple errors occurred: " +:+ pre), post.
  change (str (MultipleErrors errors))
    with ("Multiple errors occurred: " +:+ join "; " (List.map str errors)).
  rewrite Heq. symmetry. apply append_assoc.
Qed.

Section FailedDisconnect.
Context {World : Type} {win32 : Win32 World} {config : server_config}.

(** X15: when [DisconnectNamedPipe] raises on the one pending instance,
    whatever the exception, [CloseHandle] is not called on it, and the
    instance is gone from the pending list all the same. *)
Theorem failed_disconnect_skips_close (m : machine World) (h : HANDLE) (e : exn)
    (w1 : World) :
  _named_pipe_instances (self m) = [h] ->
  DisconnectNamedPipe h (world m) = (Raise e, w1) ->
  exists t,
    trace (snd (shutdown m)) = trace m ++ t
    /\ attempts t = [h]
    /\ closes t = []
    /\ _named_pipe_instances (self (snd (shutdown m))) = []
    /\ world (snd (shutdown m)) = w1.
Proof.
  intros Hl Hd.
  assert (Hrun : exists r t,
            shutdown m =
              (r, Machine (with_instances [] (with_shutdown_event true (self m))) w1
                    (trace m ++ t))
            /\ attempts t = [h] /\ closes t = []).
  { unfold shutdown. unfold_monad.
    cbn [self world trace with_shutdown_event _named_pipe_instances].
    rewrite Hl. cbn [length drain].
    unfold release, release_handler. unfold_monad.
    cbn [self world trace with_shutdown_event _named_pipe_instances].
    rewrite Hl. cbn [pop self world trace].
    rewrite Hd. cbn [self world trace with_instances].
    destruct e as [code ? ?| | | | |];
      try destruct (code =? winerror.ERROR_INVALID_HANDLE)%Z;
      cbn [self world trace with_instances]; rewrite <- ?app_assoc;
      eexists _, _; (split; [reflexivity|]); split; reflexivity. }
  destruct Hrun as (r & t & Hs & Ha & Hc).
  exists t. rewrite Hs. cbn [snd self world trace]. repeat split; assumption.
Qed.
End FailedDisconnect.

(** ** Runs on the scripted operating system *)

Import Scripted.

(** C1: three pending instances; releasing the second fails with access
    denied, a [pywintypes.error] that is not "already closed".  [shutdown]
    returns normally: the failure is neither logged nor collected, and no
    aggregate is raised. *)
Theorem shutdown_drops_pywintypes_release_failure :
  shutdown (Machine (Scripted.server [1; 2; 3] false) Scripted.access_denied_on_2 [])
  = (Return tt,
     Machine (Scripted.server [] true) Scripted.access_denied_on_2
       [EventSet; Sleep 1;
        Call_DisconnectNamedPipe 3; Call_CloseHandle 3;
        Call_DisconnectNamedPipe 2;
        Call_DisconnectNamedPipe 1; Call_CloseHandle 1]).
Proof. reflexivity. Qed.

(** The same release failing with an exception that is not a
    [pywintypes.error] is logged, collected and raised in the aggregate. *)
Lemma shutdown_collects_other_release_failure :
  exists t,
    shutdown (Machine (Scripted.server [1; 2; 3] false) Scripted.value_error_on_2 [])
    = (Raise (MultipleErrors [PyException "ValueError" "boom"]),
       Machine (Scripted.server [] true) Scripted.value_error_on_2 t)
    /\ attempts t = [3; 2; 1]
    /\ List.filter is_error_log t <> [].
Proof. eexists. split; [reflexivity|]. split; [reflexivity|discriminate]. Qed.

(** C2: an instance is created and the wait on it fails with access
    denied, a failure other than the teardown signal.  The failure is
    logged, and the same iteration then starts a handler thread on the
    instance no client has connected to. *)
Theorem handler_started_after_failed_connect :
  fst (serve_iteration (Machine (server [] false) access_denied_on_connect []))
    = Return Normal
  /\ self (snd (serve_iteration (Machine (server [] false) access_denied_on_connect [])))
     = server [7] false
  /\ trace (snd (serve_iteration (Machine (server [] false) access_denied_on_connect [])))
     = [Call_CreateNamedPipe "\\.\pipe\adaptor";
        Log DEBUG "Waiting for connection from the client...";
        Print "Waiting for connection from the client...";
        Call_ConnectNamedPipe 7;
        Log ERROR "Error encountered while connecting to NamedPipe: (5, 'ConnectNamedPipe', 'Access is denied.') ";
        Print "Error encountered while connecting to NamedPipe: (5, 'ConnectNamedPipe', 'Access is denied.') ";
        Print "Handling response";
        ThreadStart 7].
Proof. repeat split. Qed.

(** The teardown signal on the first wait: the loop returns after one
    iteration with the informational notice as its last message. *)
Lemma teardown_during_wait_ends_loop_example :
  _shutdown_event (self (Machine (server [] false) torn_down_on_connect [])) = false
  /\ fst (serve_loop 1 (Machine (server [] false) torn_down_on_connect []))
     = Return (Some tt)
  /\ trace (snd (serve_loop 1 (Machine (server [] false) torn_down_on_connect [])))
     = [Call_CreateNamedPipe "\\.\pipe\adaptor";
        Log DEBUG "Waiting for connection from the client...";
        Print "Waiting for connection from the client...";
        Call_ConnectNamedPipe 7;
        Log INFO "NamedPipe Server is shutdown. Exit the main thread in the backend server.";
        Print "NamedPipe Server is shutdown. Exit the main thread in the backend server."].
Proof.
  split; [reflexivity|].
  rewrite (teardown_during_wait_ends_loop 0
             (Machine (server [] false) torn_down_on_connect [])
             (snd (_create_pipe "\\.\pipe\adaptor"
                     (Machine (server [] false) torn_down_on_connect [])))
             7 "ConnectNamedPipe" "No process is on the other end of the pipe."
             (Script [] (connect torn_down_on_connect) ok ok 0));
    [split; reflexivity | reflexivity | reflexivity | reflexivity].
Defined.

(** No instance can be created: the loop raises at once, with five
    iterations still allowed, and the pending list keeps its one entry. *)
Lemma create_failure_is_fatal_example :
  _shutdown_event (self (Machine (server [3] false) no_instance [])) = false
  /\ serve_loop 5 (Machine (server [3] false) no_instance [])
     = (Raise (RuntimeError "Failed to create named pipe instance: Win32 error 232"),
        Machine (server [3] false) no_instance
          [Call_CreateNamedPipe "\\.\pipe\adaptor";
           Log ERROR "Failed to create named pipe instance: Win32 error 232"]).
Proof.
  split; [reflexivity|].
  rewrite (create_failure_is_fatal 4
           (Machine (server [3] false) no_instance [])
           (snd (_create_pipe "\\.\pipe\adaptor" (Machine (server [3] false) no_instance []))));
    reflexivity.
Defined.

(** Two steps of the listener bring it to the wait on instance 7, which is
    then pending and is disconnected by a shutdown at that point. *)
Lemma listening_instance_is_pending_example :
  In 7 (_named_pipe_instances
          (self (snd (serve_step (AtAppend 7)
                        (snd (serve_step AtWhile
                                (Machine (server [] false) torn_down_on_connect [])))))))
  /\ In (Call_DisconnectNamedPipe 7)
        (trace (snd (shutdown
                       (snd (serve_step (AtAppend 7)
                               (snd (serve_step AtWhile
                                       (Machine (server [] false) torn_down_on_connect [])))))))).
Proof.
  pose proof (listening_instance_is_pending
                (Machine (server [] false) torn_down_on_connect [])
                (snd (serve_step (AtAppend 7)
                        (snd (serve_step AtWhile
                                (Machine (server [] false) torn_down_on_connect [])))))
                7) as W.
  destruct W as (Hin & _ & Hdis).
  - eapply reach_step; [eapply reach_step; [apply reach_start|]|]; reflexivity.
  - split; [exact Hin|exact Hdis].
Defined.

(** Construction on Linux and on Windows. *)
Lemma init_requires_windows_example :
  fst (__init__ (os := linux) "FakeServer" "\\.\pipe\adaptor" false ∅)
    = Raise (OSError "FakeServer can be only used on Windows Operating Systems. Current Operating System is Linux")
  /\ as_server (snd (__init__ (os := windows) "FakeServer" "\\.\pipe\adaptor" false ∅))
     = Some (server [] false).
Proof.
  split.
  - destruct (init_requires_windows (os := linux) "FakeServer" "\\.\pipe\adaptor" false)
      as [Hn _].
    destruct (Hn eq_refl) as [Heq _]. rewrite Heq. reflexivity.
  - destruct (init_requires_windows (os := windows) "FakeServer" "\\.\pipe\adaptor" false)
      as [_ Hw].
    destruct (Hw eq_refl) as [_ Heq]. rewrite Heq. reflexivity.
Defined.

(** Start and cleanup both fail: the cleanup failure propagates and both
    are logged. *)
Lemma foreground_start_failure_cleans_up_example :
  EntryPoint.run_foreground (adaptor_cls := EntryPoint.scripted_adaptor) ∅
    (EntryPoint.Process
       [Raise (PyException "Exception" "start"); Raise (PyException "Exception" "cleanup")]
       [])
  = (Raise (PyException "Exception" "cleanup"),
     EntryPoint.Process []
       [EntryPoint.Called EntryPoint.Start;
        EntryPoint.Logged ERROR "Error running the adaptor: start";
        EntryPoint.Called EntryPoint.Cleanup;
        EntryPoint.Logged ERROR "Error cleaning up the adaptor: cleanup"]).
Proof.
  rewrite (foreground_start_failure_cleans_up (adaptor_cls := EntryPoint.scripted_adaptor) ∅
             [Raise (PyException "Exception" "start"); Raise (PyException "Exception" "cleanup")]
             [Raise (PyException "Exception" "cleanup")]
             (PyException "Exception" "start") []);
    reflexivity.
Defined.

(** The relative path [conn] under [/jobs/42], and an absolute path. *)
Lemma connection_file_made_absolute_example :
  (exists rest,
     snd (EntryPoint.daemon_frontend (path := EntryPoint.posix "/jobs/42")
            "run" "conn" ∅ None "adaptor")
     = EntryPoint.FrontendRunner_new "/jobs/42/conn" :: rest)
  /\ (exists rest,
        snd (EntryPoint.daemon_frontend (path := EntryPoint.posix "/jobs/42")
               "stop" "/run/conn" ∅ None "adaptor")
        = EntryPoint.FrontendRunner_new "/run/conn" :: rest).
Proof.
  split.
  - destruct (connection_file_made_absolute (path := EntryPoint.posix "/jobs/42")
                "run" "conn" ∅ None "adaptor")
      as (resolved & rest & Heq & _ & Hrel & _).
    exists rest. rewrite Heq, (Hrel eq_refl). reflexivity.
  - destruct (connection_file_made_absolute (path := EntryPoint.posix "/jobs/42")
                "stop" "/run/conn" ∅ None "adaptor")
      as (resolved & rest & Heq & _ & _ & Habs).
    exists rest. rewrite Heq, (Habs eq_refl). reflexivity.
Defined.

(** A first client connects to instance 7: one handler thread, and the
    loop goes on. *)
Lemma connected_client_gets_handler_example :
  _shutdown_event (self (Machine (server [] false) Scenarios.two_clients [])) = false
  /\ serve_loop 1 (Machine (server [] false) Scenarios.two_clients [])
     = (Return None,
        Machine (server [7] false) (Script [Return 8] ok ok ok 0)
          [Call_CreateNamedPipe "\\.\pipe\adaptor";
           Log DEBUG "Waiting for connection from the client...";
           Print "Waiting for connection from the client...";
           Call_ConnectNamedPipe 7;
           Print "Handling response"; ThreadStart 7]).
Proof.
  split; [reflexivity|].
  rewrite (connected_client_gets_handler 0
             (Machine (server [] false) Scenarios.two_clients [])
             (snd (_create_pipe "\\.\pipe\adaptor"
                     (Machine (server [] false) Scenarios.two_clients [])))
             7 (Script [Return 8] ok ok ok 0));
    reflexivity.
Defined.

(** The wait raises a [TypeError]: it leaves the loop, unlogged, with the
    instance pending. *)
Lemma other_connect_exception_escapes_example :
  is_pywintypes_error (PyException "TypeError" "The object is not a PyHANDLE object") = false
  /\ serve_loop 3 (Machine (server [] false) Scenarios.type_error_on_connect [])
     = (Raise (PyException "TypeError" "The object is not a PyHANDLE object"),
        Machine (server [7] false) (Script [] (connect Scenarios.type_error_on_connect) ok ok 0)
          [Call_CreateNamedPipe "\\.\pipe\adaptor";
           Log DEBUG "Waiting for connection from the client...";
           Print "Waiting for connection from the client...";
           Call_ConnectNamedPipe 7]).
Proof.
  split; [reflexivity|].
  rewrite (other_connect_exception_escapes 2
             (Machine (server [] false) Scenarios.type_error_on_connect [])
             (snd (_create_pipe "\\.\pipe\adaptor"
                     (Machine (server [] false) Scenarios.type_error_on_connect [])))
             7 (PyException "TypeError" "The object is not a PyHANDLE object")
             (Script [] (connect Scenarios.type_error_on_connect) ok ok 0));
    reflexivity.
Defined.

(** [CreateNamedPipe] raises access denied: the exception leaves the loop
    and only the call is in the trace. *)
Lemma create_exception_escapes_example :
  _shutdown_event (self (Machine (server [3] false) Scenarios.create_raises [])) = false
  /\ serve_loop 2 (Machine (server [3] false) Scenarios.create_raises [])
     = (Raise (PyWinError winerror.ERROR_ACCESS_DENIED "CreateNamedPipe" "Access is denied."),
        Machine (server [3] false) (Script [] ok ok ok 0)
          [Call_CreateNamedPipe "\\.\pipe\adaptor"]).
Proof.
  split; [reflexivity|].
  rewrite (create_exception_escapes 1
             (Machine (server [3] false) Scenarios.create_raises [])
             (snd (_create_pipe "\\.\pipe\adaptor"
                     (Machine (server [3] false) Scenarios.create_raises [])))
             (PyWinError winerror.ERROR_ACCESS_DENIED "CreateNamedPipe" "Access is denied."));
    reflexivity.
Defined.

(** An attribute set by a subclass survives [__init__], on Linux and on
    Windows. *)
Lemma init_leaves_other_attributes_example :
  snd (__init__ (os := linux) "FakeServer" "\\.\pipe\adaptor" false
         {["_handler_count" := VInt 2]}) !! "_handler_count" = Some (VInt 2)
  /\ snd (__init__ (os := windows) "FakeServer" "\\.\pipe\adaptor" false
            {["_handler_count" := VInt 2]}) !! "_handler_count" = Some (VInt 2).
Proof.
  split.
  - rewrite (init_leaves_other_attributes (os := linux));
      [reflexivity | discriminate | left; reflexivity].
  - rewrite (init_leaves_other_attributes (os := windows));
      [reflexivity | discriminate | right; repeat split; discriminate].
Defined.

(** [__init__] run on an object that has two pending instances. *)
Lemma init_resets_server_state_example :
  as_server (snd (__init__ (os := windows) "FakeServer" "\\.\pipe\adaptor" false
                    {["_named_pipe_instances" := VHandles [1; 2]]}))
  = Some (server [] false).
Proof.
  destruct (init_resets_server_state (os := windows) "FakeServer" "\\.\pipe\adaptor" false
              {["_named_pipe_instances" := VHandles [1; 2]]} eq_refl) as [_ Heq].
  rewrite Heq. reflexivity.
Defined.

(** The message of an aggregate of two errors contains the second one's. *)
Lemma aggregate_message_contains_each_error_example :
  exists pre post,
    str (MultipleErrors [PyException "ValueError" "boom"; RuntimeError "bad handle"])
    = pre +:+ "bad handle" +:+ post.
Proof.
  apply (aggregate_message_contains_each_error
           [PyException "ValueError" "boom"; RuntimeError "bad handle"]
           (RuntimeError "bad handle")).
  right. left. reflexivity.
Defined.

(** The disconnect of the only pending instance is refused: the handle is
    not closed and is no longer pending. *)
Lemma failed_disconnect_skips_close_example :
  exists t,
    trace (snd (shutdown (Machine (server [2] false) access_denied_on_2 []))) = [] ++ t
    /\ attempts t = [2]
    /\ closes t = []
    /\ _named_pipe_instances
         (self (snd (shutdown (Machine (server [2] false) access_denied_on_2 [])))) = []
    /\ world (snd (shutdown (Machine (server [2] false) access_denied_on_2 [])))
       = access_denied_on_2.
Proof.
  apply (failed_disconnect_skips_close
           (Machine (server [2] false) access_denied_on_2 []) 2
           (PyWinError winerror.ERROR_ACCESS_DENIED "DisconnectNamedPipe" "Access is denied.")
           access_denied_on_2); reflexivity.
Defined.

(** Three distinct pending instances, the disconnect of the second
    refused: the handles closed are distinct. *)
Lemma shutdown_closes_only_pending_handles_example :
  exists t,
    trace (snd (shutdown (Machine (server [1; 2; 3] false) access_denied_on_2 []))) = [] ++ t
    /\ closes t = [3; 1]
    /\ NoDup (closes t).
Proof.
  destruct (shutdown_closes_only_pending_handles
              (Machine (server [1; 2; 3] false) access_denied_on_2 []))
    as (t & Ht & _ & Hnd).
  exists t. split; [exact Ht|]. split.
  - cbn [trace app] in Ht. rewrite <- Ht. reflexivity.
  - apply Hnd. cbn [self _named_pipe_instances server].
    repeat (apply NoDup_cons_2;
            [intros Hin; apply list_elem_of_In in Hin; cbn in Hin; intuition discriminate|]).
    apply NoDup_nil_2.
Defined.
